(** * Solace: the session orchestration of [mental_health_companion.py]

    A shallow embedding of the parts of [SolaceApp] that own the
    conversation transcript, talk to the provider, post work to the Tk
    event loop and drive the box-breathing animation.

    Modelling conventions.
    - A Python [str] is a [string] holding its UTF-8 bytes; equality,
      concatenation and substring replacement are the same on both views.
    - Python floats (the breathing scale, the sleep length, the sampling
      temperature) are exact rationals in [Q]; rounding is not modelled.
    - A method of [SolaceApp] is a command tree [Cmd]: every read or write
      of [self], every widget call, every [root.after], every thread start
      and every HTTP request is one node.  A tree is run either to
      completion by one thread ([exec]) or one node at a time by a worker
      inside the interleaving semantics ([step]).
    - The widget-only methods ([_show_thinking], [_append_message],
      [_draw_breath_circle], ...) are primitive widget calls. *)

From Stdlib Require Import List String Ascii ZArith QArith Bool Lia.
From Stdlib Require Import DecimalString.
Import ListNotations.

Set Warnings "-register-all".

Open Scope string_scope.
Open Scope Z_scope.

(* ------------------------------------------------------------------ *)
(** ** Python strings *)

Module PyStr.

Definition of_bytes (bs : list nat) : string :=
  string_of_list_ascii (map ascii_of_nat bs).

(** The characters for which [str.isspace] holds, in UTF-8:
    U+0009..U+000D, U+001C..U+0020, U+0085, U+00A0, U+1680,
    U+2000..U+200A, U+2028, U+2029, U+202F, U+205F, U+3000. *)
Definition whitespace : list string :=
  map of_bytes
    [ [9%nat]; [10%nat]; [11%nat]; [12%nat]; [13%nat];
      [28%nat]; [29%nat]; [30%nat]; [31%nat]; [32%nat];
      [194; 133]%nat; [194; 160]%nat; [225; 154; 128]%nat;
      [226; 128; 128]%nat; [226; 128; 129]%nat; [226; 128; 130]%nat;
      [226; 128; 131]%nat; [226; 128; 132]%nat; [226; 128; 133]%nat;
      [226; 128; 134]%nat; [226; 128; 135]%nat; [226; 128; 136]%nat;
      [226; 128; 137]%nat; [226; 128; 138]%nat;
      [226; 128; 168]%nat; [226; 128; 169]%nat; [226; 128; 175]%nat;
      [226; 129; 159]%nat; [227; 128; 128]%nat ].

Fixpoint drop (n : nat) (s : string) : string :=
  match n, s with
  | O, _ => s
  | S _, EmptyString => EmptyString
  | S n', String _ s' => drop n' s'
  end.

Fixpoint rev_onto (s acc : string) : string :=
  match s with
  | EmptyString => acc
  | String c s' => rev_onto s' (String c acc)
  end.

Definition rev (s : string) : string := rev_onto s EmptyString.

(** Remove one leading occurrence of a member of [seqs], if any. *)
Fixpoint drop_one (seqs : list string) (s : string) : option string :=
  match seqs with
  | [] => None
  | w :: rest =>
      if prefix w s then Some (drop (String.length w) s)
      else drop_one rest s
  end.

Fixpoint drop_leading (fuel : nat) (seqs : list string) (s : string) : string :=
  match fuel with
  | O => s
  | S fuel' =>
      match drop_one seqs s with
      | Some s' => drop_leading fuel' seqs s'
      | None => s
      end
  end.

Definition lstrip (s : string) : string :=
  drop_leading (String.length s) whitespace s.

Definition rstrip (s : string) : string :=
  rev (drop_leading (String.length s) (map rev whitespace) (rev s)).

(** [s.strip()] *)
Definition strip (s : string) : string := rstrip (lstrip s).

(** [not s] for a string: the empty string is falsy. *)
Definition falsy (s : string) : bool :=
  match s with EmptyString => true | _ => false end.

(** [s.replace(old, new)] for a non-empty [old]: occurrences are replaced
    left to right without overlap.  [skip] counts the bytes of a matched
    occurrence that are still to be dropped. *)
Fixpoint replace_from (old new : string) (skip : nat) (s : string) : string :=
  match s with
  | EmptyString => EmptyString
  | String c s' =>
      match skip with
      | S n => replace_from old new n s'
      | O =>
          if prefix old s
          then new ++ replace_from old new (Nat.pred (String.length old)) s'
          else String c (replace_from old new O s')
      end
  end.

Definition replace (old new s : string) : string := replace_from old new O s.

(** [str(n)] / [f"{n}"] for an integer. *)
Definition of_int (n : Z) : string := NilZero.string_of_int (Z.to_int n).

End PyStr.

(* ------------------------------------------------------------------ *)
(** ** Exceptions and JSON values *)

(** The exceptions that can reach the [except Exception] handlers.  Each
    carries what [str(e)] prints; for the exceptions raised by the
    interpreter and by [requests] that text is CPython 3.11's. *)
Inductive exn : Type :=
| Exception (msg : string)          (* [raise Exception(...)] in the source *)
| RequestException (msg : string)   (* raised inside [requests.get/post] *)
| JSONDecodeError (msg : string)    (* [response.json()] on a non-JSON body *)
| KeyError (key_repr : string)
| IndexError (msg : string)
| TypeError (msg : string)
| AttributeError (msg : string).

Definition str_exn (e : exn) : string :=
  match e with
  | Exception m | RequestException m | JSONDecodeError m
  | KeyError m | IndexError m | TypeError m | AttributeError m => m
  end.

(** What [response.json()] returns. *)
Inductive json : Type :=
| JNull
| JBool (b : bool)
| JInt (n : Z)
| JFloat (literal : string)
| JStr (s : string)
| JArr (items : list json)
| JObj (members : list (string * json)).

Definition type_name (v : json) : string :=
  match v with
  | JNull => "NoneType"
  | JBool _ => "bool"
  | JInt _ => "int"
  | JFloat _ => "float"
  | JStr _ => "str"
  | JArr _ => "list"
  | JObj _ => "dict"
  end.

Definition not_subscriptable (v : json) : exn :=
  TypeError ("'" ++ type_name v ++ "' object is not subscriptable").

(** A decoded JSON object is a [dict]: of two members with one name the
    later one wins. *)
Fixpoint dict_get (members : list (string * json)) (k : string) : option json :=
  match members with
  | [] => None
  | (k', v) :: rest =>
      match dict_get rest k with
      | Some v' => Some v'
      | None => if String.eqb k' k then Some v else None
      end
  end.

(** The first character of a non-empty string: its first byte and the
    UTF-8 continuation bytes (10xxxxxx) that follow it. *)
Fixpoint continuation_bytes (s : string) : string :=
  match s with
  | EmptyString => EmptyString
  | String c s' =>
      if andb (128 <=? Z.of_nat (nat_of_ascii c)) (Z.of_nat (nat_of_ascii c) <? 192)
      then String c (continuation_bytes s')
      else EmptyString
  end.

(** [v[k]] for a string key. *)
Definition getitem (v : json) (k : string) : exn + json :=
  match v with
  | JObj members =>
      match dict_get members k with
      | Some x => inr x
      | None => inl (KeyError ("'" ++ k ++ "'"))
      end
  | JArr _ => inl (TypeError "list indices must be integers or slices, not str")
  | JStr _ => inl (TypeError "string indices must be integers, not 'str'")
  | _ => inl (not_subscriptable v)
  end.

(** [v[0]] *)
Definition getitem0 (v : json) : exn + json :=
  match v with
  | JArr (x :: _) => inr x
  | JArr [] => inl (IndexError "list index out of range")
  | JStr (String c s) => inr (JStr (String c (continuation_bytes s)))
  | JStr EmptyString => inl (IndexError "string index out of range")
  | JObj _ => inl (KeyError "0")
  | _ => inl (not_subscriptable v)
  end.

(** [v.strip()] *)
Definition strip_method (v : json) : exn + string :=
  match v with
  | JStr s => inr (PyStr.strip s)
  | _ => inl (AttributeError ("'" ++ type_name v ++ "' object has no attribute 'strip'"))
  end.

Definition try_bind {A B : Type} (r : exn + A) (f : A -> exn + B) : exn + B :=
  match r with
  | inl e => inl e
  | inr a => f a
  end.

Notation "x <-? r ;; k" := (try_bind r (fun x => k))
  (at level 61, r at next level, right associativity).

(* ------------------------------------------------------------------ *)
(** ** The provider's HTTP surface *)

(** [{"role": ..., "content": ...}] *)
Record Message : Type := mkMessage { role : string; content : string }.

Record Payload : Type := mkPayload {
  model : string;
  messages : list Message;
  max_tokens : Z;
  temperature : Q
}.

Inductive Verb : Type := GET | POST.

Record HttpRequest : Type := mkRequest {
  verb : Verb;
  url : string;
  headers : list (string * string);
  json_payload : option Payload
}.

(** A response as far as the program looks at it: [status_code], and the
    value of [response.json()], [None] when the body is not JSON. *)
Record Response : Type := mkResponse {
  status_code : Z;
  body : option json
}.

Inductive HttpOutcome : Type :=
| Raised (msg : string)       (* the call raised: no connection, timeout, ... *)
| Responded (r : Response).

(* ------------------------------------------------------------------ *)
(** ** Configuration *)

Definition SYSTEM_PROMPT : string :=
  "You are Solace, a warm and empathetic mental health companion. Your role is to:
- Listen deeply and reflect back what you hear with genuine compassion
- Validate emotions without judgment
- Ask thoughtful, open-ended questions to help the user explore their feelings
- Offer gentle, evidence-based coping strategies when appropriate (breathing exercises, grounding techniques, journaling prompts)
- Recognize when someone may need professional help and gently encourage it
- Never diagnose or prescribe
- Keep responses concise (2-4 sentences usually), warm, and conversational
- Use simple, accessible language
- If someone expresses suicidal ideation or self-harm, ALWAYS provide crisis resources: 988 Suicide & Crisis Lifeline (call/text 988 in the US)

Always respond with warmth, patience, and genuine care.".

Definition TEXT_PRIMARY : string := "#f5f0ff".

Definition BOX_BREATHING_STEPS : list (string * Z) :=
  [ ("Inhale…", 4); ("Hold…", 4); ("Exhale…", 6); ("Hold…", 4) ].

Definition PLACEHOLDER : string := "Share what's on your mind…".

(* ------------------------------------------------------------------ *)
(** ** The application object *)

(** The attributes of [self] that the orchestration code reads or writes.
    [client] is [None] until a connect succeeds and [True] afterwards.
    The last five fields are the contents of Tk variables and widgets:
    [provider_var], the key entry, the input box, and the texts shown by
    the status label and the breathing button.  ([breath_thread] is
    written once and never read; it is left out.) *)
Record App : Type := mkApp {
  api_provider : string;
  api_key : string;
  openai_api_key : string;
  openrouter_api_key : string;
  client : option bool;
  conversation_history : list Message;
  breathing : bool;
  provider_var : string;
  key_entry : string;
  input_box : string;
  status_label : string;
  breath_btn : string
}.

(** [if self.client] *)
Definition truthy (c : option bool) : bool :=
  match c with
  | Some true => true
  | _ => false
  end.

(** Assignments to attributes of [self], and the one in-place list
    mutation, [self.conversation_history.append(m)]. *)
Inductive Mutation : Type :=
| conversation_history_append (m : Message)
| set_api_provider (s : string)
| set_api_key (s : string)
| set_openai_api_key (s : string)
| set_openrouter_api_key (s : string)
| set_client (c : option bool)
| set_breathing (b : bool).

Definition mutate (m : Mutation) (a : App) : App :=
  match m with
  | conversation_history_append x =>
      mkApp a.(api_provider) a.(api_key) a.(openai_api_key) a.(openrouter_api_key)
            a.(client) (a.(conversation_history) ++ [x]) a.(breathing)
            a.(provider_var) a.(key_entry) a.(input_box) a.(status_label) a.(breath_btn)
  | set_api_provider s =>
      mkApp s a.(api_key) a.(openai_api_key) a.(openrouter_api_key)
            a.(client) a.(conversation_history) a.(breathing)
            a.(provider_var) a.(key_entry) a.(input_box) a.(status_label) a.(breath_btn)
  | set_api_key s =>
      mkApp a.(api_provider) s a.(openai_api_key) a.(openrouter_api_key)
            a.(client) a.(conversation_history) a.(breathing)
            a.(provider_var) a.(key_entry) a.(input_box) a.(status_label) a.(breath_btn)
  | set_openai_api_key s =>
      mkApp a.(api_provider) a.(api_key) s a.(openrouter_api_key)
            a.(client) a.(conversation_history) a.(breathing)
            a.(provider_var) a.(key_entry) a.(input_box) a.(status_label) a.(breath_btn)
  | set_openrouter_api_key s =>
      mkApp a.(api_provider) a.(api_key) a.(openai_api_key) s
            a.(client) a.(conversation_history) a.(breathing)
            a.(provider_var) a.(key_entry) a.(input_box) a.(status_label) a.(breath_btn)
  | set_client c =>
      mkApp a.(api_provider) a.(api_key) a.(openai_api_key) a.(openrouter_api_key)
            c a.(conversation_history) a.(breathing)
            a.(provider_var) a.(key_entry) a.(input_box) a.(status_label) a.(breath_btn)
  | set_breathing b =>
      mkApp a.(api_provider) a.(api_key) a.(openai_api_key) a.(openrouter_api_key)
            a.(client) a.(conversation_history) b
            a.(provider_var) a.(key_entry) a.(input_box) a.(status_label) a.(breath_btn)
  end.

(** Calls into Tk: widget methods, and the methods of [SolaceApp] that do
    nothing but draw. *)
Inductive WidgetCall : Type :=
| status_label_configure (text fg : string)
| breath_btn_configure (text : string)
| key_entry_delete                          (* [key_entry.delete(0, tk.END)] *)
| key_entry_insert (text : string)          (* [key_entry.insert(0, text)] *)
| input_box_delete                          (* [input_box.delete("1.0", "end")] *)
| input_box_insert (text : string)          (* [input_box.insert("1.0", text)] *)
| input_box_configure (fg : string)
| show_thinking
| hide_thinking
| start_bot_message (name : string)
| append_chunk (chunk : string)
| finish_bot_message
| append_message (who name text : string)
| draw_breath_circle (label : string) (scale : Q).

(** The effect of a widget call on the widget contents kept in [App];
    the chat display and the canvas are write-only and live in the log. *)
Definition draw (w : WidgetCall) (a : App) : App :=
  match w with
  | status_label_configure text _ =>
      mkApp a.(api_provider) a.(api_key) a.(openai_api_key) a.(openrouter_api_key)
            a.(client) a.(conversation_history) a.(breathing)
            a.(provider_var) a.(key_entry) a.(input_box) text a.(breath_btn)
  | breath_btn_configure text =>
      mkApp a.(api_provider) a.(api_key) a.(openai_api_key) a.(openrouter_api_key)
            a.(client) a.(conversation_history) a.(breathing)
            a.(provider_var) a.(key_entry) a.(input_box) a.(status_label) text
  | key_entry_delete =>
      mkApp a.(api_provider) a.(api_key) a.(openai_api_key) a.(openrouter_api_key)
            a.(client) a.(conversation_history) a.(breathing)
            a.(provider_var) "" a.(input_box) a.(status_label) a.(breath_btn)
  | key_entry_insert text =>
      mkApp a.(api_provider) a.(api_key) a.(openai_api_key) a.(openrouter_api_key)
            a.(client) a.(conversation_history) a.(breathing)
            a.(provider_var) (text ++ a.(key_entry)) a.(input_box) a.(status_label) a.(breath_btn)
  | input_box_delete =>
      mkApp a.(api_provider) a.(api_key) a.(openai_api_key) a.(openrouter_api_key)
            a.(client) a.(conversation_history) a.(breathing)
            a.(provider_var) a.(key_entry) "" a.(status_label) a.(breath_btn)
  | input_box_insert text =>
      mkApp a.(api_provider) a.(api_key) a.(openai_api_key) a.(openrouter_api_key)
            a.(client) a.(conversation_history) a.(breathing)
            a.(provider_var) a.(key_entry) (text ++ a.(input_box)) a.(status_label) a.(breath_btn)
  | _ => a
  end.

Inductive BoxKind : Type := showerror | showwarning.

(** The [messages] argument of [_stream_response]: either the list object
    [self.conversation_history] itself, or a list of the caller's own. *)
Inductive MessagesArg : Type :=
| the_history
| own_list (l : list Message).

(** What a [threading.Thread] is started on. *)
Inductive Target : Type :=
| stream_response_target (messages : MessagesArg)
| run_breathing_target.

(* ------------------------------------------------------------------ *)
(** ** Command trees *)

Inductive Cmd (A : Type) : Type :=
| Ret (a : A)
| Self (k : App -> Cmd A)                       (* read attributes of [self] *)
| Assign (m : Mutation) (k : Cmd A)
| Widget (w : WidgetCall) (k : Cmd A)           (* call Tk directly *)
| After (w : WidgetCall) (k : Cmd A)            (* [self.root.after(0, callback)] *)
| ThreadStart (t : Target) (k : Cmd A)          (* [threading.Thread(target=...).start()] *)
| Http (rq : HttpRequest) (k : HttpOutcome -> Cmd A)
| MessageBox (kind : BoxKind) (title message : string) (k : Cmd A)
| Stdout (line : string) (k : Cmd A)
| Sleep (seconds : Q) (k : Cmd A).

Arguments Ret {A} a.
Arguments Self {A} k.
Arguments Assign {A} m k.
Arguments Widget {A} w k.
Arguments After {A} w k.
Arguments ThreadStart {A} t k.
Arguments Http {A} rq k.
Arguments MessageBox {A} kind title message k.
Arguments Stdout {A} line k.
Arguments Sleep {A} seconds k.

Fixpoint bind {A B : Type} (c : Cmd A) (f : A -> Cmd B) : Cmd B :=
  match c with
  | Ret a => f a
  | Self k => Self (fun s => bind (k s) f)
  | Assign m k => Assign m (bind k f)
  | Widget w k => Widget w (bind k f)
  | After w k => After w (bind k f)
  | ThreadStart t k => ThreadStart t (bind k f)
  | Http rq k => Http rq (fun o => bind (k o) f)
  | MessageBox kind title message k => MessageBox kind title message (bind k f)
  | Stdout line k => Stdout line (bind k f)
  | Sleep d k => Sleep d (bind k f)
  end.

Declare Scope cmd_scope.
Delimit Scope cmd_scope with cmd.
Bind Scope cmd_scope with Cmd.

Notation "x <- c ;; k" := (bind c (fun x => k))
  (at level 61, c at next level, right associativity) : cmd_scope.
Notation "c ;; k" := (bind c (fun _ => k))
  (at level 61, right associativity) : cmd_scope.

(** One-node commands. *)
Definition self : Cmd App := Self (fun s => Ret s).
Definition assign (m : Mutation) : Cmd unit := Assign m (Ret tt).
Definition widget (w : WidgetCall) : Cmd unit := Widget w (Ret tt).
Definition after (w : WidgetCall) : Cmd unit := After w (Ret tt).
Definition thread_start (t : Target) : Cmd unit := ThreadStart t (Ret tt).
Definition http (rq : HttpRequest) : Cmd HttpOutcome := Http rq (fun o => Ret o).
Definition messagebox (kind : BoxKind) (title message : string) : Cmd unit :=
  MessageBox kind title message (Ret tt).
Definition stdout (line : string) : Cmd unit := Stdout line (Ret tt).
Definition sleep (seconds : Q) : Cmd unit := Sleep seconds (Ret tt).

(** A [for] loop whose body answers whether to go on: [false] is [break]. *)
Definition BREAK : bool := false.
Definition CONTINUE : bool := true.

Fixpoint for_each {X : Type} (xs : list X) (body : X -> Cmd bool) : Cmd unit :=
  match xs with
  | [] => Ret tt
  | x :: rest =>
      bind (body x) (fun go_on => if go_on then for_each rest body else Ret tt)
  end.

(** [range(n)] *)
Definition range (n : nat) : list Z := map Z.of_nat (seq 0 n).

(* ------------------------------------------------------------------ *)
(** ** The methods of [SolaceApp] *)

Open Scope string_scope.
Open Scope cmd_scope.

Definition _update_key_entry : Cmd unit :=
  widget key_entry_delete ;;
  s <- self ;;
  (if s.(api_provider) =? "OpenAI"
   then assign (set_api_key s.(openai_api_key))
   else assign (set_api_key s.(openrouter_api_key))) ;;
  s <- self ;;
  if PyStr.falsy s.(api_key) then Ret tt
  else widget (key_entry_insert s.(api_key)).

Definition _on_provider_change : Cmd unit :=
  s <- self ;;
  assign (set_api_provider s.(provider_var)) ;;
  _update_key_entry.

(** *** API connection *)

Definition MODELS_URL : string := "https://openrouter.ai/api/v1/models".

Definition HARDCODED_KEY : string :=
  "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".

(** The [except Exception as e] clause of [_connect_client]. *)
Definition connect_except (e : exn) : Cmd unit :=
  widget (status_label_configure "● Error" "#ef4444") ;;
  messagebox showerror "Connection Error" (str_exn e).

Definition _connect_client : Cmd unit :=
  s <- self ;;
  if s.(api_provider) =? "OpenAI" then
    let headers := [("Authorization", "Bearer " ++ HARDCODED_KEY)] in
    outcome <- http (mkRequest GET MODELS_URL headers None) ;;
    match outcome with
    | Raised msg => connect_except (RequestException msg)
    | Responded response =>
        stdout ("Status:" ++ PyStr.of_int response.(status_code)) ;;
        if (response.(status_code) =? 200)%Z then
          assign (set_client (Some true)) ;;
          widget (status_label_configure "● Connected" "#34d399")
        else connect_except (Exception "Invalid API key")
    end
  else
    s <- self ;;
    let headers := [("Authorization", "Bearer " ++ s.(api_key))] in
    outcome <- http (mkRequest GET MODELS_URL headers None) ;;
    match outcome with
    | Raised msg => connect_except (RequestException msg)
    | Responded response =>
        if (response.(status_code) =? 200)%Z then
          assign (set_client (Some true)) ;;
          widget (status_label_configure "● Connected" "#34d399")
        else connect_except (Exception "Invalid API key")
    end.

(** *** Messaging *)

Definition _send_greeting : Cmd unit :=
  thread_start (stream_response_target (own_list [mkMessage "user" "Hello"])).

Definition _on_connect : Cmd unit :=
  s <- self ;;
  let key := PyStr.strip s.(key_entry) in
  if PyStr.falsy key then
    messagebox showerror "Missing Key"
      ("Please enter your " ++ s.(provider_var) ++ " API key.")
  else
    assign (set_api_key key) ;;
    s <- self ;;
    (if s.(api_provider) =? "OpenAI"
     then assign (set_openai_api_key key)
     else assign (set_openrouter_api_key key)) ;;
    _connect_client ;;
    s <- self ;;
    if andb (truthy s.(client))
            (match s.(conversation_history) with [] => true | _ => false end)
    then _send_greeting
    else Ret tt.

Definition _clear_placeholder : Cmd unit :=
  s <- self ;;
  if s.(input_box) =? PLACEHOLDER then
    widget input_box_delete ;;
    widget (input_box_configure TEXT_PRIMARY)
  else Ret tt.

Definition TEXT_DIM : string := "#6b7280".

Definition _restore_placeholder : Cmd unit :=
  s <- self ;;
  if PyStr.falsy (PyStr.strip s.(input_box)) then
    widget (input_box_insert PLACEHOLDER) ;;
    widget (input_box_configure TEXT_DIM)
  else Ret tt.

Definition _send_message : Cmd unit :=
  s <- self ;;
  if negb (truthy s.(client)) then
    messagebox showwarning "Not Connected"
      ("Please enter your " ++ s.(provider_var) ++ " API key and click Connect.")
  else
    s <- self ;;
    let text := PyStr.strip s.(input_box) in
    if orb (PyStr.falsy text) (text =? PLACEHOLDER) then Ret tt
    else
      widget input_box_delete ;;
      widget (input_box_configure TEXT_PRIMARY) ;;
      widget (append_message "user" "You" text) ;;
      assign (conversation_history_append (mkMessage "user" text)) ;;
      thread_start (stream_response_target the_history).

Definition _send_quick (prompt : string) : Cmd unit :=
  widget input_box_delete ;;
  widget (input_box_configure TEXT_PRIMARY) ;;
  widget (input_box_insert prompt) ;;
  _send_message.

(** [result["choices"][0]["message"]["content"].strip()], or the
    exception raised on the way, for the outcome of the POST. *)
Definition completion_text (outcome : HttpOutcome) : exn + string :=
  match outcome with
  | Raised msg => inl (RequestException msg)
  | Responded response =>
      if (response.(status_code) =? 200)%Z then
        result <-? match response.(body) with
                   | Some v => inr v
                   | None => inl (JSONDecodeError "Expecting value: line 1 column 1 (char 0)")
                   end ;;
        choices <-? getitem result "choices" ;;
        choice <-? getitem0 choices ;;
        message <-? getitem choice "message" ;;
        text <-? getitem message "content" ;;
        strip_method text
      else inl (Exception ("API Error: " ++ PyStr.of_int response.(status_code)))
  end.

(** The list a worker iterates over when it builds its payload. *)
Definition read_messages (arg : MessagesArg) (s : App) : list Message :=
  match arg with
  | the_history => s.(conversation_history)
  | own_list l => l
  end.

(** The tail of the [try] block, after [full_text] is known, and the
    [except] clause. *)
Definition stream_finish (full_text : string) : Cmd unit :=
  after (start_bot_message "Solace") ;;
  after (append_chunk full_text) ;;
  assign (conversation_history_append (mkMessage "assistant" full_text)) ;;
  after finish_bot_message.

Definition stream_except (e : exn) : Cmd unit :=
  after hide_thinking ;;
  after (append_message "bot" "Solace" ("Something went wrong: " ++ str_exn e)).

Definition chat_request (endpoint key model_name : string) (msgs : list Message)
  : HttpRequest :=
  mkRequest POST endpoint
    [("Authorization", "Bearer " ++ key); ("Content-Type", "application/json")]
    (Some (mkPayload model_name
                     (mkMessage "system" SYSTEM_PROMPT :: msgs)
                     150 (7 # 10))).

Definition _stream_response (messages : MessagesArg) : Cmd unit :=
  after show_thinking ;;
  s <- self ;;
  if s.(api_provider) =? "OpenAI" then
    s <- self ;;
    let key := s.(api_key) in
    s <- self ;;
    let openai_messages := read_messages messages s in
    outcome <- http (chat_request "https://api.openai.com/v1/chat/completions"
                                  key "gpt-3.5-turbo" openai_messages) ;;
    match completion_text outcome with
    | inr full_text => stream_finish full_text
    | inl e => stream_except e
    end
  else
    s <- self ;;
    let key := s.(api_key) in
    s <- self ;;
    let openrouter_messages := read_messages messages s in
    outcome <- http (chat_request "https://openrouter.ai/api/v1/chat/completions"
                                  key "anthropic/claude-3-haiku" openrouter_messages) ;;
    match completion_text outcome with
    | inr full_text => stream_finish full_text
    | inl e => stream_except e
    end.

(** *** Box breathing *)

Definition _toggle_breathing : Cmd unit :=
  s <- self ;;
  if s.(breathing) then
    assign (set_breathing false) ;;
    widget (breath_btn_configure "Start Breathing") ;;
    widget (draw_breath_circle "Ready" 1)
  else
    assign (set_breathing true) ;;
    widget (breath_btn_configure "Stop") ;;
    thread_start run_breathing_target.

Definition steps : Z := 30.
Definition start_scale : Q := 1.

Definition end_scale (label : string) : Q :=
  if orb (label =? "Inhale…") (label =? "Hold…") then 135 # 100 else 1.

(** [start_scale + (end_scale - start_scale) * (i / steps)] *)
Definition scale_at (label : string) (i : Z) : Q :=
  Qred (start_scale + (end_scale label - start_scale) * (inject_Z i / inject_Z steps)).

(** [label.replace("…", f" ({duration - int(i * duration / steps)}s)")];
    [i * duration] is a small non-negative integer, so [int] of the float
    quotient is the truncated integer quotient. *)
Definition lbl_at (label : string) (duration i : Z) : string :=
  PyStr.replace "…"
    (" (" ++ PyStr.of_int (duration - Z.quot (i * duration) steps) ++ "s)") label.

(** [duration / steps] *)
Definition tick_sleep (duration : Z) : Q :=
  Qred (inject_Z duration / inject_Z steps).

(** The innermost loop: [for i in range(steps + 1)]. *)
Definition animate (label : string) (duration : Z) : Cmd unit :=
  for_each (range (Z.to_nat (steps + 1))) (fun i =>
    s <- self ;;
    if negb s.(breathing) then Ret BREAK
    else
      after (draw_breath_circle (lbl_at label duration i) (scale_at label i)) ;;
      sleep (tick_sleep duration) ;;
      Ret CONTINUE).

(** The middle loop: [for label, duration in BOX_BREATHING_STEPS]. *)
Definition breathe_steps : Cmd unit :=
  for_each BOX_BREATHING_STEPS (fun '(label, duration) =>
    s <- self ;;
    if negb s.(breathing) then Ret BREAK
    else
      animate label duration ;;
      Ret CONTINUE).

Definition _run_breathing : Cmd unit :=
  for_each (range 4) (fun cycle =>
    s <- self ;;
    if negb s.(breathing) then Ret BREAK
    else
      breathe_steps ;;
      Ret CONTINUE) ;;
  s <- self ;;
  if s.(breathing) then
    assign (set_breathing false) ;;
    after (breath_btn_configure "Start Breathing") ;;
    after (draw_breath_circle "Done ✓" 1)
  else Ret tt.

(** The body a started thread runs. *)
Definition target_body (t : Target) : Cmd unit :=
  match t with
  | stream_response_target messages => _stream_response messages
  | run_breathing_target => _run_breathing
  end.

Close Scope cmd_scope.

(* ------------------------------------------------------------------ *)
(** ** Running a command tree *)

Open Scope list_scope.

(** What a thread does to the world, in program order. *)
Inductive Event : Type :=
| EvAssign (m : Mutation)
| EvWidget (w : WidgetCall)
| EvAfter (w : WidgetCall)
| EvThreadStart (t : Target)
| EvHttp (rq : HttpRequest)
| EvMessageBox (kind : BoxKind) (title message : string)
| EvStdout (line : string)
| EvSleep (seconds : Q).

(** [exec net c a] runs [c] to its end on one thread, starting from [a],
    with nothing else running in between; [net] answers the HTTP
    requests.  It yields the result, the final [App] and the events. *)
Fixpoint exec {A : Type} (net : HttpRequest -> HttpOutcome) (c : Cmd A) (a : App)
  : A * App * list Event :=
  match c with
  | Ret x => (x, a, [])
  | Self k => exec net (k a) a
  | Assign m k =>
      let '(x, a', evs) := exec net k (mutate m a) in (x, a', EvAssign m :: evs)
  | Widget w k =>
      let '(x, a', evs) := exec net k (draw w a) in (x, a', EvWidget w :: evs)
  | After w k =>
      let '(x, a', evs) := exec net k a in (x, a', EvAfter w :: evs)
  | ThreadStart t k =>
      let '(x, a', evs) := exec net k a in (x, a', EvThreadStart t :: evs)
  | Http rq k =>
      let '(x, a', evs) := exec net (k (net rq)) a in (x, a', EvHttp rq :: evs)
  | MessageBox kind title message k =>
      let '(x, a', evs) := exec net k a in (x, a', EvMessageBox kind title message :: evs)
  | Stdout line k =>
      let '(x, a', evs) := exec net k a in (x, a', EvStdout line :: evs)
  | Sleep d k =>
      let '(x, a', evs) := exec net k a in (x, a', EvSleep d :: evs)
  end.

Definition final {A : Type} (r : A * App * list Event) : App := snd (fst r).
Definition events {A : Type} (r : A * App * list Event) : list Event := snd r.

(** The callbacks a run has handed to [root.after], in posting order. *)
Fixpoint posted (evs : list Event) : list WidgetCall :=
  match evs with
  | [] => []
  | EvAfter w :: rest => w :: posted rest
  | _ :: rest => posted rest
  end.

(** The threads a run has started. *)
Fixpoint started (evs : list Event) : list Target :=
  match evs with
  | [] => []
  | EvThreadStart t :: rest => t :: started rest
  | _ :: rest => started rest
  end.

(** The messages a run has appended to [conversation_history]. *)
Fixpoint appended (evs : list Event) : list Message :=
  match evs with
  | [] => []
  | EvAssign (conversation_history_append m) :: rest => m :: appended rest
  | _ :: rest => appended rest
  end.

(** The HTTP requests a run has issued. *)
Fixpoint requested (evs : list Event) : list HttpRequest :=
  match evs with
  | [] => []
  | EvHttp rq :: rest => rq :: requested rest
  | _ :: rest => requested rest
  end.

(** [e1] happens strictly before [e2] in [evs]. *)
Definition precedes (e1 e2 : Event) (evs : list Event) : Prop :=
  exists l1 l2 l3, evs = l1 ++ e1 :: l2 ++ e2 :: l3.

(* ------------------------------------------------------------------ *)
(** ** The interleaving semantics *)

(** The Tk main loop runs on [UI]; every started thread is a [Worker],
    numbered in starting order. *)
Inductive Thread : Type :=
| UI
| Worker (n : nat).

(** What the user can do to the window. *)
Inductive UserAction : Type :=
| select_provider (p : string)    (* pick an entry of the provider menu *)
| type_key (s : string)           (* edit the key entry *)
| type_input (s : string)         (* edit the input box *)
| click_connect
| press_send                      (* the Send button, or Enter *)
| click_quick (prompt : string)
| click_breath
| focus_in
| focus_out.

Definition set_widgets (pv ke ib : string) (a : App) : App :=
  mkApp a.(api_provider) a.(api_key) a.(openai_api_key) a.(openrouter_api_key)
        a.(client) a.(conversation_history) a.(breathing)
        pv ke ib a.(status_label) a.(breath_btn).

(** What Tk itself does on a user action, before any handler runs. *)
Definition tk_input (u : UserAction) (a : App) : App :=
  match u with
  | select_provider p => set_widgets p a.(key_entry) a.(input_box) a
  | type_key s => set_widgets a.(provider_var) s a.(input_box) a
  | type_input s => set_widgets a.(provider_var) a.(key_entry) s a
  | _ => a
  end.

(** The handler bound to a user action. *)
Definition handler (u : UserAction) : Cmd unit :=
  match u with
  | select_provider _ => _on_provider_change
  | type_key _ => Ret tt
  | type_input _ => Ret tt
  | click_connect => _on_connect
  | press_send => _send_message
  | click_quick prompt => _send_quick prompt
  | click_breath => _toggle_breathing
  | focus_in => _clear_placeholder
  | focus_out => _restore_placeholder
  end.

Record System : Type := mkSystem {
  app : App;
  after_queue : list WidgetCall;      (* posted with [root.after], not yet run *)
  workers : list (Cmd unit);          (* what is left of each started thread *)
  log : list (Thread * Event)
}.

Definition tag (t : Thread) (evs : list Event) : list (Thread * Event) :=
  map (pair t) evs.

(** One node of a worker's tree: what is left, the new [App], the event
    if the node has one.  [None] when the thread has returned. *)
Definition worker_node (outcome : HttpOutcome) (c : Cmd unit) (a : App)
  : option (Cmd unit * App * list Event) :=
  match c with
  | Ret _ => None
  | Self k => Some (k a, a, [])
  | Assign m k => Some (k, mutate m a, [EvAssign m])
  | Widget w k => Some (k, draw w a, [EvWidget w])
  | After w k => Some (k, a, [EvAfter w])
  | ThreadStart t k => Some (k, a, [EvThreadStart t])
  | Http rq k => Some (k outcome, a, [EvHttp rq])
  | MessageBox kind title message k => Some (k, a, [EvMessageBox kind title message])
  | Stdout line k => Some (k, a, [EvStdout line])
  | Sleep d k => Some (k, a, [EvSleep d])
  end.

Fixpoint set_nth {X : Type} (n : nat) (x : X) (l : list X) : list X :=
  match n, l with
  | _, [] => []
  | O, _ :: rest => x :: rest
  | S n', y :: rest => y :: set_nth n' x rest
  end.

(** A step of the whole program.  The main loop runs a handler or a
    posted callback from beginning to end; a worker advances by one node,
    so workers interleave with each other and with the main loop at every
    read, write, post, request and sleep. *)
Inductive step : System -> System -> Prop :=
| step_user : forall s u net r,
    (* the main loop dispatches a user action; its handler runs to the end *)
    r = exec net (handler u) (tk_input u s.(app)) ->
    step s (mkSystem (final r)
                     (s.(after_queue) ++ posted (events r))
                     (s.(workers) ++ map target_body (started (events r)))
                     (s.(log) ++ tag UI (events r)))
| step_callback : forall s w q,
    (* the main loop runs the oldest posted callback *)
    s.(after_queue) = w :: q ->
    step s (mkSystem (draw w s.(app)) q s.(workers)
                     (s.(log) ++ [(UI, EvWidget w)]))
| step_worker : forall s n c outcome c' a' evs,
    (* worker [n] runs one node *)
    nth_error s.(workers) n = Some c ->
    worker_node outcome c s.(app) = Some (c', a', evs) ->
    step s (mkSystem a'
                     (s.(after_queue) ++ posted evs)
                     (set_nth n c' s.(workers) ++ map target_body (started evs))
                     (s.(log) ++ tag (Worker n) evs)).

Inductive steps_to : System -> System -> Prop :=
| steps_refl : forall s, steps_to s s
| steps_more : forall s1 s2 s3, steps_to s1 s2 -> step s2 s3 -> steps_to s1 s3.

(** The window just after [__init__] with no key in the environment. *)
Definition fresh_app : App :=
  mkApp "OpenRouter" "" "" "" None [] false
        "OpenRouter" "" PLACEHOLDER "● Not connected" "Start Breathing".

Definition fresh : System := mkSystem fresh_app [] [] [].

Definition reachable (s : System) : Prop := steps_to fresh s.

(* ------------------------------------------------------------------ *)
(** ** Derived states and specification vocabulary *)

(** The state [_send_message] leaves behind when it accepts [text]. *)
Definition sent (text : string) (a : App) : App :=
  mutate (conversation_history_append (mkMessage "user" text))
         (draw (input_box_configure TEXT_PRIMARY) (draw input_box_delete a)).

(** Sample inputs: a window connected through OpenRouter whose input box
    holds [input], a network that is down, and a provider that answers
    every request with status 200 and the reply [text]. *)
Definition connected_app (input : string) : App :=
  mkApp "OpenRouter" "sk-demo" "" "sk-demo" (Some true) [] false
        "OpenRouter" "sk-demo" input "● Connected" "Start Breathing".

Definition offline : HttpRequest -> HttpOutcome :=
  fun _ => Raised "Connection refused".

Definition reply_body (text : string) : json :=
  JObj [("choices",
         JArr [JObj [("message",
                      JObj [("role", JStr "assistant"); ("content", JStr text)])]])].

Definition replying (text : string) : HttpRequest -> HttpOutcome :=
  fun _ => Responded (mkResponse 200 (Some (reply_body text))).

Definition answering (status : Z) : HttpRequest -> HttpOutcome :=
  fun _ => Responded (mkResponse status None).

(** The body holds the reply text [s] at [choices[0].message.content]. *)
Definition reply_at (b : option json) (s : string) : Prop :=
  exists top choice others message,
    b = Some (JObj top)
    /\ dict_get top "choices" = Some (JArr (JObj choice :: others))
    /\ dict_get choice "message" = Some (JObj message)
    /\ dict_get message "content" = Some (JStr s).

(** The three ways a provider call fails, and the one way it succeeds
    with the reply [text]. *)
Inductive provider_call_fails : HttpOutcome -> Prop :=
| network_error : forall msg, provider_call_fails (Raised msg)
| bad_status : forall r,
    r.(status_code) <> 200 -> provider_call_fails (Responded r)
| malformed_body : forall r,
    r.(status_code) = 200 ->
    (forall s, ~ reply_at r.(body) s) ->
    provider_call_fails (Responded r).

Inductive provider_call_succeeds : HttpOutcome -> string -> Prop :=
| good_reply : forall r s,
    r.(status_code) = 200 ->
    reply_at r.(body) s ->
    provider_call_succeeds (Responded r) (PyStr.strip s).

(** The request [_stream_response] sends when it runs in state [a]. *)
Definition stream_request (messages : MessagesArg) (a : App) : HttpRequest :=
  if (a.(api_provider) =? "OpenAI")%string
  then chat_request "https://api.openai.com/v1/chat/completions"
                    a.(api_key) "gpt-3.5-turbo" (read_messages messages a)
  else chat_request "https://openrouter.ai/api/v1/chat/completions"
                    a.(api_key) "anthropic/claude-3-haiku" (read_messages messages a).

(** What the rendered error message says. *)
Definition error_text (e : exn) : string :=
  ("Something went wrong: " ++ str_exn e)%string.

(** The request [_connect_client] sends when it runs in state [a], and
    whether its outcome counts as a pass. *)
Definition health_request (a : App) : HttpRequest :=
  mkRequest GET MODELS_URL
    [("Authorization",
      ("Bearer " ++ (if a.(api_provider) =? "OpenAI"
                     then HARDCODED_KEY else a.(api_key)))%string)]
    None.

Definition health_check_passes (o : HttpOutcome) : bool :=
  match o with
  | Responded r => (r.(status_code) =? 200)%Z
  | Raised _ => false
  end.

(** A window that was connected with a good key, in which the user has
    since typed another key and a message. *)
Definition rekeyed_app : App :=
  set_widgets "OpenRouter" "sk-revoked" "hi" (connected_app "").

(** *** An uninterrupted breathing session, written out *)

(** One tick: a posted frame, then the sleep. *)
Definition tick_events (label : string) (duration i : Z) : list Event :=
  [ EvAfter (draw_breath_circle (lbl_at label duration i) (scale_at label i));
    EvSleep (tick_sleep duration) ].

(** One phase: the ticks [i = 0, 1, ..., 30]. *)
Definition phase_events (phase : string * Z) : list Event :=
  let '(label, duration) := phase in
  flat_map (tick_events label duration) (range 31).

(** One cycle: inhale, hold, exhale, hold. *)
Definition cycle_events : list Event :=
  flat_map phase_events
    [ ("Inhale…", 4); ("Hold…", 4); ("Exhale…", 6); ("Hold…", 4) ].

(** Four cycles, then the flag is cleared and the "Done" state posted. *)
Definition session_events : list Event :=
  flat_map (fun _ : Z => cycle_events) (range 4)
  ++ [ EvAssign (set_breathing false);
       EvAfter (breath_btn_configure "Start Breathing");
       EvAfter (draw_breath_circle "Done ✓" 1) ].

(** A window in which a breathing session is under way. *)
Definition breathing_app : App :=
  draw (breath_btn_configure "Stop") (mutate (set_breathing true) fresh_app).

(** *** Who does what *)

(** [only P c]: every event that [c] can produce, along any of its
    branches, satisfies [P]. *)
Inductive only (P : Event -> Prop) {A : Type} : Cmd A -> Prop :=
| only_Ret : forall x, only P (Ret x)
| only_Self : forall k, (forall s, only P (k s)) -> only P (Self k)
| only_Assign : forall m k, P (EvAssign m) -> only P k -> only P (Assign m k)
| only_Widget : forall w k, P (EvWidget w) -> only P k -> only P (Widget w k)
| only_After : forall w k, P (EvAfter w) -> only P k -> only P (After w k)
| only_ThreadStart : forall t k,
    P (EvThreadStart t) -> only P k -> only P (ThreadStart t k)
| only_Http : forall rq k,
    P (EvHttp rq) -> (forall o, only P (k o)) -> only P (Http rq k)
| only_MessageBox : forall kind title message k,
    P (EvMessageBox kind title message) -> only P k ->
    only P (MessageBox kind title message k)
| only_Stdout : forall line k, P (EvStdout line) -> only P k -> only P (Stdout line k)
| only_Sleep : forall d k, P (EvSleep d) -> only P k -> only P (Sleep d k).

(** What the started threads do themselves: they post callbacks, send
    requests and sleep; they append assistant messages and clear the
    breathing flag. *)
Definition worker_event (e : Event) : Prop :=
  match e with
  | EvAfter _ | EvHttp _ | EvSleep _ => True
  | EvAssign (conversation_history_append m) => m.(role) = "assistant"
  | EvAssign (set_breathing b) => b = false
  | _ => False
  end.

(** What the handlers run by the main loop do: everything but posting
    and sleeping, and of the appends only those of user messages. *)
Definition ui_event (e : Event) : Prop :=
  match e with
  | EvAfter _ | EvSleep _ => False
  | EvAssign (conversation_history_append m) => m.(role) = "user"
  | _ => True
  end.

Definition by_thread (te : Thread * Event) : Prop :=
  match fst te with
  | UI => ui_event (snd te)
  | Worker _ => worker_event (snd te)
  end.

(** The invariant of the interleaving semantics: what is left of every
    started thread can only produce worker events, and every logged event
    was produced by a thread of the right kind. *)
Definition well_threaded (s : System) : Prop :=
  Forall (only worker_event) s.(workers) /\ Forall by_thread s.(log).

(** *** A scheduler that can be run *)

Inductive Choice : Type :=
| user (u : UserAction) (net : HttpRequest -> HttpOutcome)
| callback
| worker (n : nat) (outcome : HttpOutcome).

Definition schedule1 (ch : Choice) (s : System) : option System :=
  match ch with
  | user u net =>
      let r := exec net (handler u) (tk_input u s.(app)) in
      Some (mkSystem (final r)
                     (s.(after_queue) ++ posted (events r))
                     (s.(workers) ++ map target_body (started (events r)))
                     (s.(log) ++ tag UI (events r)))
  | callback =>
      match s.(after_queue) with
      | w :: q =>
          Some (mkSystem (draw w s.(app)) q s.(workers)
                         (s.(log) ++ [(UI, EvWidget w)]))
      | [] => None
      end
  | worker n outcome =>
      match nth_error s.(workers) n with
      | Some c =>
          match worker_node outcome c s.(app) with
          | Some (c', a', evs) =>
              Some (mkSystem a'
                             (s.(after_queue) ++ posted evs)
                             (set_nth n c' s.(workers)
                              ++ map target_body (started evs))
                             (s.(log) ++ tag (Worker n) evs))
          | None => None
          end
      | None => None
      end
  end.

Fixpoint schedule (chs : list Choice) (s : System) : option System :=
  match chs with
  | [] => Some s
  | ch :: rest =>
      match schedule1 ch s with
      | Some s' => schedule rest s'
      | None => None
      end
  end.

(** The user connects, types a message and sends it; the worker started
    for it then runs up to its append, the provider answering "Hello". *)
Definition one_turn : list Choice :=
  [ user (type_key "sk-demo") offline;
    user click_connect (answering 200);
    user (type_input "I can't sleep") offline;
    user press_send offline ]
  ++ repeat (worker 1 (Responded (mkResponse 200 (Some (reply_body "Hello"))))) 8.

Definition after_one_turn : System :=
  match schedule one_turn fresh with
  | Some s => s
  | None => fresh
  end.

(** The user starts a breathing session, stops it while its worker is
    asleep after the first frame, and starts again at once; the first
    worker then wakes up. *)
Definition stop_and_restart : list Choice :=
  [ user click_breath offline ]
  ++ repeat (worker 0 (Raised "")) 5
  ++ [ user click_breath offline; user click_breath offline ]
  ++ repeat (worker 0 (Raised "")) 2.

(** Worker [n] has been started and has not returned. *)
Definition alive (n : nat) (s : System) : bool :=
  match nth_error s.(workers) n with
  | Some (Ret _) => false
  | Some _ => true
  | None => false
  end.

From Stdlib Require Import Lqa.

(* ------------------------------------------------------------------ *)
(** ** The rest of the window's logic *)

Definition QUICK_PROMPTS : list string :=
  [ "I'm feeling overwhelmed";
    "I can't sleep";
    "I need to talk";
    "I feel lonely";
    "I'm anxious";
    "Help me breathe" ]%string.

(** [_on_enter(event)], by the modifier mask [event.state]; the result is
    what the binding returns, [None] when the method falls off its end. *)
Definition _on_enter (state : Z) : Cmd (option string) :=
  if (Z.land state 1 =? 0)%Z then
    bind _send_message (fun _ => Ret (Some "break"%string))
  else Ret None.

(** [self] as [__init__] has it once the attributes are assigned and
    [_build_ui] has built the widgets, for the two keys read from the
    environment: [_build_sidebar] calls [_update_key_entry], the input
    box is given the placeholder. *)
Definition built_app (env_openai env_openrouter : string) : App :=
  mkApp "OpenRouter" env_openrouter env_openai env_openrouter None [] false
        "OpenRouter" env_openrouter PLACEHOLDER
        "● Not connected" "Start Breathing".

(** The end of [__init__], "Auto-connect if key is in env".  The result
    lists what was registered with [root.after] under a delay: the delay
    in milliseconds and the method to call. *)
Definition auto_connect : Cmd (list (Z * Cmd unit)) :=
  bind self (fun s =>
    if orb (negb (PyStr.falsy s.(openai_api_key)))
           (negb (PyStr.falsy s.(openrouter_api_key)))
    then bind _connect_client (fun _ => Ret [(400, _send_greeting)])
    else Ret []).

(** *** Vocabulary for the properties below *)

(** The state in which [_on_connect] calls [_connect_client]. *)
Definition keyed (a : App) : App :=
  let key := PyStr.strip a.(key_entry) in
  mutate (if (a.(api_provider) =? "OpenAI")%string
          then set_openai_api_key key else set_openrouter_api_key key)
         (mutate (set_api_key key) a).

(** The thread the greeting is sent on. *)
Definition greeting_target : Target :=
  stream_response_target (own_list [mkMessage "user" "Hello"]).

(** [duration - int(i * duration / steps)], the seconds a frame shows. *)
Definition remaining (duration i : Z) : Z :=
  duration - Z.quot (i * duration) steps.

(** The seconds a run has slept, in all. *)
Fixpoint slept (evs : list Event) : Q :=
  match evs with
  | [] => 0
  | EvSleep d :: rest => d + slept rest
  | _ :: rest => slept rest
  end.

(** [s] holds no byte 226, the first byte of the ellipsis. *)
Fixpoint no_ellipsis (s : string) : Prop :=
  match s with
  | EmptyString => True
  | String c s' => nat_of_ascii c <> 226%nat /\ no_ellipsis s'
  end.

(** Assignments to [client] only ever set it. *)
Definition keeps_client (e : Event) : Prop :=
  match e with
  | EvAssign (set_client c) => c = Some true
  | _ => True
  end.

(** What a breathing worker does: it posts frames and the button reset,
    sleeps, and clears the flag. *)
Definition breathing_event (e : Event) : Prop :=
  match e with
  | EvAfter (draw_breath_circle _ _) | EvAfter (breath_btn_configure _) => True
  | EvSleep _ => True
  | EvAssign (set_breathing b) => b = false
  | _ => False
  end.

(** Every message has come from the user or from the provider. *)
Definition spoken (m : Message) : Prop :=
  m.(role) = "user"%string \/ m.(role) = "assistant"%string.

(** A user message that is worth sending: neither empty nor the
    placeholder.  Other events pass. *)
Definition meaningful (e : Event) : Prop :=
  match e with
  | EvAssign (conversation_history_append m) =>
      m.(role) = "user"%string ->
      m.(content) <> ""%string /\ m.(content) <> PLACEHOLDER
  | _ => True
  end.

(* ------------------------------------------------------------------ *)
(** ** Basic facts *)

Example strip_spaces : PyStr.strip "  I can't sleep  " = "I can't sleep".
Proof. reflexivity. Qed.

Example strip_blank : PyStr.strip (PyStr.of_bytes [32; 9; 10; 194; 160]%nat) = "".
Proof. reflexivity. Qed.

Example replace_ellipsis : PyStr.replace "…" " (4s)" "Inhale…" = "Inhale (4s)".
Proof. reflexivity. Qed.

Example of_int_500 : PyStr.of_int 500 = "500".
Proof. reflexivity. Qed.

Arguments PyStr.strip : simpl never.
Arguments PyStr.of_int : simpl never.
Arguments String.eqb : simpl never.
Arguments String.append : simpl never.

Lemma falsy_empty (s : string) : PyStr.falsy s = true <-> s = "".
Proof.
  destruct s; simpl; split; intro H; try reflexivity; discriminate H.
Qed.

Lemma falsy_nonempty (s : string) : s <> "" -> PyStr.falsy s = false.
Proof.
  destruct s; simpl; intro H; [ now elim H | reflexivity ].
Qed.

Lemma exec_bind {A B : Type} (net : HttpRequest -> HttpOutcome)
      (c : Cmd A) (f : A -> Cmd B) (a : App) :
  exec net (bind c f) a =
  let '(x, a1, e1) := exec net c a in
  let '(y, a2, e2) := exec net (f x) a1 in
  (y, a2, e1 ++ e2).
Proof.
  revert a.
  induction c as [x | k IH | m k IH | w k IH | w k IH | t k IH | rq k IH
                  | kind title message k IH | line k IH | d k IH]; intro a; simpl.
  - destruct (exec net (f x) a) as [[y a2] e2]; reflexivity.
  - apply IH.
  - rewrite IH. destruct (exec net k (mutate m a)) as [[x a1] e1].
    destruct (exec net (f x) a1) as [[y a2] e2]; reflexivity.
  - rewrite IH. destruct (exec net k (draw w a)) as [[x a1] e1].
    destruct (exec net (f x) a1) as [[y a2] e2]; reflexivity.
  - rewrite IH. destruct (exec net k a) as [[x a1] e1].
    destruct (exec net (f x) a1) as [[y a2] e2]; reflexivity.
  - rewrite IH. destruct (exec net k a) as [[x a1] e1].
    destruct (exec net (f x) a1) as [[y a2] e2]; reflexivity.
  - rewrite IH. destruct (exec net (k (net rq)) a) as [[x a1] e1].
    destruct (exec net (f x) a1) as [[y a2] e2]; reflexivity.
  - rewrite IH. destruct (exec net k a) as [[x a1] e1].
    destruct (exec net (f x) a1) as [[y a2] e2]; reflexivity.
  - rewrite IH. destruct (exec net k a) as [[x a1] e1].
    destruct (exec net (f x) a1) as [[y a2] e2]; reflexivity.
  - rewrite IH. destruct (exec net k a) as [[x a1] e1].
    destruct (exec net (f x) a1) as [[y a2] e2]; reflexivity.
Qed.

Lemma precedes_intro (e1 e2 : Event) (l1 l2 l3 : list Event) :
  precedes e1 e2 (l1 ++ e1 :: l2 ++ e2 :: l3).
Proof. exists l1, l2, l3; reflexivity. Qed.

(* ------------------------------------------------------------------ *)
(** ** Sending a message *)

Section Send.

Variable net : HttpRequest -> HttpOutcome.

Lemma send_not_connected (a : App) :
  truthy a.(client) = false ->
  exec net _send_message a =
  (tt, a, [EvMessageBox showwarning "Not Connected"
             ("Please enter your " ++ a.(provider_var)
              ++ " API key and click Connect.")%string]).
Proof.
  intro H. unfold _send_message. cbn. rewrite H. reflexivity.
Qed.

Lemma send_ignored (a : App) :
  truthy a.(client) = true ->
  PyStr.strip a.(input_box) = "" \/ PyStr.strip a.(input_box) = PLACEHOLDER ->
  exec net _send_message a = (tt, a, []).
Proof.
  intros Hc Ht. unfold _send_message. cbn. rewrite Hc. cbn.
  destruct Ht as [Ht | Ht]; rewrite Ht; reflexivity.
Qed.

Lemma send_accepted (a : App) :
  truthy a.(client) = true ->
  PyStr.strip a.(input_box) <> "" ->
  PyStr.strip a.(input_box) <> PLACEHOLDER ->
  exec net _send_message a =
  (tt, sent (PyStr.strip a.(input_box)) a,
   [ EvWidget input_box_delete;
     EvWidget (input_box_configure TEXT_PRIMARY);
     EvWidget (append_message "user" "You" (PyStr.strip a.(input_box)));
     EvAssign (conversation_history_append
                 (mkMessage "user" (PyStr.strip a.(input_box))));
     EvThreadStart (stream_response_target the_history) ]).
Proof.
  intros Hc Hne Hph. unfold _send_message. cbn. rewrite Hc. cbn.
  rewrite (falsy_nonempty _ Hne).
  apply String.eqb_neq in Hph. rewrite Hph. reflexivity.
Qed.

(** C6.  While [self.client] is not truthy, [_send_message] does one thing,
    whatever the input box holds: it shows the "Not Connected" warning.
    No attribute of [self] and no widget changes (so neither the
    transcript, nor [client], nor the status label), no thread is started
    and no request is issued. *)
Theorem send_while_not_connected (a : App) :
  truthy a.(client) = false ->
  let r := exec net _send_message a in
  events r = [EvMessageBox showwarning "Not Connected"
                ("Please enter your " ++ a.(provider_var)
                 ++ " API key and click Connect.")%string]
  /\ final r = a
  /\ appended (events r) = []
  /\ started (events r) = []
  /\ requested (events r) = [].
Proof.
  intro H. cbv zeta. rewrite (send_not_connected a H).
  repeat split; reflexivity.
Qed.

(** C10.  While connected, an input box whose stripped text is exactly the
    placeholder is ignored without a trace: nothing is appended, no thread
    is started, no box is shown and no state changes; and the placeholder
    is neither empty nor changed by stripping. *)
Theorem placeholder_is_ignored (a : App) :
  truthy a.(client) = true ->
  PyStr.strip a.(input_box) = PLACEHOLDER ->
  exec net _send_message a = (tt, a, [])
  /\ PLACEHOLDER <> ""
  /\ PyStr.strip PLACEHOLDER = PLACEHOLDER.
Proof.
  intros Hc Ht. split; [ | split ].
  - apply send_ignored; [ exact Hc | right; exact Ht ].
  - discriminate.
  - reflexivity.
Qed.

(** C5, as amended.  While connected, an input box whose stripped text is
    neither empty nor the placeholder makes [_send_message] clear the
    box, draw the user's message, append exactly one [user] message
    holding the stripped text, and only then start one worker on
    [_stream_response]; an input box that strips to nothing is ignored
    without a trace. *)
Theorem send_appends_then_starts (a : App) :
  truthy a.(client) = true ->
  let text := PyStr.strip a.(input_box) in
  (text <> "" -> text <> PLACEHOLDER ->
   let r := exec net _send_message a in
   final r = sent text a
   /\ (final r).(conversation_history)
      = a.(conversation_history) ++ [mkMessage "user" text]
   /\ appended (events r) = [mkMessage "user" text]
   /\ started (events r) = [stream_response_target the_history]
   /\ requested (events r) = []
   /\ precedes (EvAssign (conversation_history_append (mkMessage "user" text)))
               (EvThreadStart (stream_response_target the_history))
               (events r))
  /\ (text = "" -> exec net _send_message a = (tt, a, [])).
Proof.
  intros Hc text. split.
  - intros Hne Hph. cbv zeta. subst text.
    rewrite (send_accepted a Hc Hne Hph). cbn [final events fst snd].
    repeat split.
    exists [ EvWidget input_box_delete;
             EvWidget (input_box_configure TEXT_PRIMARY);
             EvWidget (append_message "user" "You" (PyStr.strip a.(input_box))) ],
           [], [].
    reflexivity.
  - intro He. apply send_ignored; [ exact Hc | left; exact He ].
Qed.

End Send.

Lemma send_while_not_connected_witness :
  let r := exec offline _send_message fresh_app in
  events r = [EvMessageBox showwarning "Not Connected"
                "Please enter your OpenRouter API key and click Connect."]
  /\ final r = fresh_app
  /\ appended (events r) = []
  /\ started (events r) = []
  /\ requested (events r) = [].
Proof.
  apply (send_while_not_connected offline fresh_app). reflexivity.
Defined.

Lemma placeholder_is_ignored_witness :
  exec offline _send_message (connected_app PLACEHOLDER)
  = (tt, connected_app PLACEHOLDER, [])
  /\ PLACEHOLDER <> ""
  /\ PyStr.strip PLACEHOLDER = PLACEHOLDER.
Proof.
  apply (placeholder_is_ignored offline (connected_app PLACEHOLDER));
    reflexivity.
Defined.

Lemma send_appends_then_starts_witness :
  let a := connected_app "  I can't sleep  " in
  a.(conversation_history) = []
  /\ (final (exec offline _send_message a)).(conversation_history)
     = [mkMessage "user" "I can't sleep"].
Proof.
  intro a. split; [ reflexivity | ].
  destruct (send_appends_then_starts offline a) as [H _]; [ reflexivity | ].
  destruct H as (_ & H & _).
  - vm_compute. discriminate.
  - vm_compute. discriminate.
  - exact H.
Defined.

(** C5 as stated fails at the placeholder: it is not empty after
    stripping, the window is connected, and yet nothing is appended. *)
Lemma send_placeholder_appends_nothing :
  ~ (forall (net : HttpRequest -> HttpOutcome) (a : App),
        truthy a.(client) = true ->
        PyStr.strip a.(input_box) <> "" ->
        appended (events (exec net _send_message a))
        = [mkMessage "user" (PyStr.strip a.(input_box))]).
Proof.
  intro H.
  assert (Hc : truthy (connected_app PLACEHOLDER).(client) = true)
    by reflexivity.
  assert (Hne : PyStr.strip (connected_app PLACEHOLDER).(input_box) <> "")
    by (vm_compute; discriminate).
  specialize (H offline _ Hc Hne).
  vm_compute in H. discriminate H.
Qed.

(* ------------------------------------------------------------------ *)
(** ** The provider call *)

Arguments chat_request : simpl never.
Arguments completion_text : simpl never.

Lemma completion_text_Raised (msg : string) :
  completion_text (Raised msg) = inl (RequestException msg).
Proof. reflexivity. Qed.

Lemma completion_text_bad_status (r : Response) :
  r.(status_code) <> 200 ->
  completion_text (Responded r)
  = inl (Exception ("API Error: " ++ PyStr.of_int r.(status_code))%string).
Proof.
  intro H. unfold completion_text.
  apply Z.eqb_neq in H. rewrite H. reflexivity.
Qed.

Lemma completion_text_reply (r : Response) (s : string) :
  r.(status_code) = 200 -> reply_at r.(body) s ->
  completion_text (Responded r) = inr (PyStr.strip s).
Proof.
  intros Hs (top & choice & others & message & Hb & Hc & Hm & Ht).
  unfold completion_text. rewrite Hs, Hb. cbn.
  rewrite Hc. cbn. rewrite Hm. cbn. rewrite Ht. reflexivity.
Qed.

(** Conversely, a text comes out only of a 200 whose body has the shape. *)
Lemma completion_text_inr (o : HttpOutcome) (t : string) :
  completion_text o = inr t ->
  exists r s, o = Responded r /\ r.(status_code) = 200
              /\ reply_at r.(body) s /\ t = PyStr.strip s.
Proof.
  unfold completion_text. destruct o as [msg | r]; [ discriminate | ].
  destruct (Z.eqb_spec r.(status_code) 200) as [Hs | Hs]; [ | discriminate ].
  destruct r.(body) as [v | ] eqn:Hb; [ | discriminate ].
  cbn. destruct v as [ | | | | | | top ]; try discriminate. cbn.
  destruct (dict_get top "choices") as [choices | ] eqn:Hc; [ | discriminate ].
  cbn.
  destruct choices as [ | | | | s0 | items | ]; try discriminate.
  - destruct s0; discriminate.
  - destruct items as [ | choice others ]; [ discriminate | ]. cbn.
    destruct choice as [ | | | | | | cm ]; try discriminate. cbn.
    destruct (dict_get cm "message") as [message | ] eqn:Hm; [ | discriminate ].
    cbn. destruct message as [ | | | | | | mm ]; try discriminate. cbn.
    destruct (dict_get mm "content") as [text | ] eqn:Ht; [ | discriminate ].
    cbn. destruct text as [ | | | | s | | ]; try discriminate.
    intro H. injection H as <-.
    exists r, s. repeat split; try assumption.
    exists top, cm, others, mm. repeat split; assumption.
Qed.

Lemma fails_iff (o : HttpOutcome) :
  provider_call_fails o <-> exists e, completion_text o = inl e.
Proof.
  split.
  - intros [msg | r Hs | r Hs Hb].
    + eexists; apply completion_text_Raised.
    + eexists; apply completion_text_bad_status; exact Hs.
    + destruct (completion_text (Responded r)) as [e | t] eqn:E.
      * exists e; reflexivity.
      * apply completion_text_inr in E.
        destruct E as (r' & s & Hr & _ & Hat & _).
        injection Hr as <-. elim (Hb s Hat).
  - intros [e He]. destruct o as [msg | r]; [ constructor | ].
    destruct (Z.eq_dec r.(status_code) 200) as [Hs | Hs].
    + apply malformed_body; [ exact Hs | ].
      intros s Hat. rewrite (completion_text_reply r s Hs Hat) in He.
      discriminate.
    + apply bad_status; exact Hs.
Qed.

Lemma succeeds_iff (o : HttpOutcome) (t : string) :
  provider_call_succeeds o t <-> completion_text o = inr t.
Proof.
  split.
  - intros [r s Hs Hat]. apply completion_text_reply; assumption.
  - intro H. apply completion_text_inr in H.
    destruct H as (r & s & -> & Hs & Hat & ->). constructor; assumption.
Qed.

(** The whole of [_stream_response], by the outcome of its one request. *)
Lemma exec_stream_response (net : HttpRequest -> HttpOutcome)
      (messages : MessagesArg) (a : App) :
  exec net (_stream_response messages) a =
  let rq := stream_request messages a in
  match completion_text (net rq) with
  | inr full_text =>
      (tt,
       mutate (conversation_history_append (mkMessage "assistant" full_text)) a,
       [ EvAfter show_thinking; EvHttp rq;
         EvAfter (start_bot_message "Solace");
         EvAfter (append_chunk full_text);
         EvAssign (conversation_history_append (mkMessage "assistant" full_text));
         EvAfter finish_bot_message ])
  | inl e =>
      (tt, a,
       [ EvAfter show_thinking; EvHttp rq;
         EvAfter hide_thinking;
         EvAfter (append_message "bot" "Solace" (error_text e)) ])
  end.
Proof.
  unfold _stream_response, stream_request. cbn.
  destruct (a.(api_provider) =? "OpenAI")%string; cbn;
    match goal with
    | |- context [completion_text ?o] => destruct (completion_text o)
    end; reflexivity.
Qed.

Section Worker.

Variable net : HttpRequest -> HttpOutcome.

(** C4.  When the provider call of [_stream_response] fails (the request
    raises, the status is not 200, or the body has no reply text where
    it is looked for), the run leaves every attribute of [self] as it
    found it: the transcript still ends with the user's message and holds
    no assistant turn, and [client] is still set.  Exactly one error
    message is posted for rendering, after the removal of the thinking
    indicator; no thread is started. *)
Theorem failed_call_records_nothing (messages : MessagesArg) (a : App) :
  provider_call_fails (net (stream_request messages a)) ->
  let r := exec net (_stream_response messages) a in
  final r = a
  /\ (final r).(conversation_history) = a.(conversation_history)
  /\ (final r).(client) = a.(client)
  /\ appended (events r) = []
  /\ started (events r) = []
  /\ exists e,
       completion_text (net (stream_request messages a)) = inl e
       /\ posted (events r)
          = [ show_thinking; hide_thinking;
              append_message "bot" "Solace" (error_text e) ].
Proof.
  intro Hf. apply fails_iff in Hf. destruct Hf as [e He].
  cbv zeta. rewrite exec_stream_response. cbv zeta. rewrite He.
  cbn [final events fst snd].
  repeat split. exists e. split; reflexivity.
Qed.

(** C2, as the code has it.  When the provider call succeeds with the
    reply [text], the callbacks posted by [_stream_response] are, in
    order: show the thinking indicator, start the bot message, append the
    reply, finish the bot message.  The removal of the thinking indicator
    is not among them, although the failure path posts it; the assistant
    message is appended between the posting of the reply and the posting
    of the finish. *)
Theorem success_never_hides_thinking (messages : MessagesArg) (a : App)
        (text : string) :
  provider_call_succeeds (net (stream_request messages a)) text ->
  let r := exec net (_stream_response messages) a in
  posted (events r)
  = [ show_thinking; start_bot_message "Solace"; append_chunk text;
      finish_bot_message ]
  /\ ~ In hide_thinking (posted (events r))
  /\ appended (events r) = [mkMessage "assistant" text]
  /\ precedes (EvAfter (append_chunk text))
              (EvAssign (conversation_history_append (mkMessage "assistant" text)))
              (events r).
Proof.
  intro Hs. apply succeeds_iff in Hs.
  cbv zeta. rewrite exec_stream_response. cbv zeta. rewrite Hs.
  cbn [final events fst snd posted appended].
  split; [ reflexivity | split; [ | split; [ reflexivity | ] ] ].
  - intros [H | [H | [H | [H | []]]]]; discriminate H.
  - exists [ EvAfter show_thinking; EvHttp (stream_request messages a);
             EvAfter (start_bot_message "Solace") ],
           [], [ EvAfter finish_bot_message ].
    reflexivity.
Qed.

End Worker.

Lemma failed_call_records_nothing_witness :
  let a := sent "I can't sleep" (connected_app "I can't sleep") in
  let r := exec (answering 500) (_stream_response the_history) a in
  final r = a
  /\ (final r).(conversation_history) = [mkMessage "user" "I can't sleep"]
  /\ (final r).(client) = Some true
  /\ appended (events r) = []
  /\ started (events r) = []
  /\ exists e,
       completion_text (answering 500 (stream_request the_history a)) = inl e
       /\ posted (events r)
          = [ show_thinking; hide_thinking;
              append_message "bot" "Solace" (error_text e) ].
Proof.
  intros a.
  apply (failed_call_records_nothing (answering 500) the_history a).
  apply bad_status. vm_compute. discriminate.
Defined.

Lemma success_never_hides_thinking_witness :
  let a := sent "I can't sleep" (connected_app "I can't sleep") in
  let r := exec (replying "  Rest will come. ") (_stream_response the_history) a in
  posted (events r)
  = [ show_thinking; start_bot_message "Solace";
      append_chunk (PyStr.strip "  Rest will come. "); finish_bot_message ]
  /\ ~ In hide_thinking (posted (events r))
  /\ appended (events r)
     = [mkMessage "assistant" (PyStr.strip "  Rest will come. ")]
  /\ precedes (EvAfter (append_chunk (PyStr.strip "  Rest will come. ")))
              (EvAssign (conversation_history_append
                           (mkMessage "assistant" (PyStr.strip "  Rest will come. "))))
              (events r).
Proof.
  intros a.
  apply (success_never_hides_thinking (replying "  Rest will come. ")
           the_history a).
  apply good_reply; [ reflexivity | ].
  exists [("choices",
           JArr [JObj [("message",
                        JObj [("role", JStr "assistant");
                              ("content", JStr "  Rest will come. ")])]])],
         [("message",
           JObj [("role", JStr "assistant");
                 ("content", JStr "  Rest will come. ")])],
         [],
         [("role", JStr "assistant"); ("content", JStr "  Rest will come. ")].
  repeat split.
Defined.

(* ------------------------------------------------------------------ *)
(** ** Connecting *)

Section Connect.

Variable net : HttpRequest -> HttpOutcome.

Lemma exec_connect_client (a : App) :
  let rq := health_request a in
  let r := exec net _connect_client a in
  requested (events r) = [rq]
  /\ final r
     = (if health_check_passes (net rq)
        then draw (status_label_configure "● Connected" "#34d399")
                  (mutate (set_client (Some true)) a)
        else draw (status_label_configure "● Error" "#ef4444") a)
  /\ started (events r) = []
  /\ appended (events r) = [].
Proof.
  unfold _connect_client, health_request. cbn.
  destruct (a.(api_provider) =? "OpenAI")%string; cbn;
    destruct (net _) as [msg | resp]; cbn;
    try destruct (resp.(status_code) =? 200)%Z; cbn;
    repeat split; reflexivity.
Qed.

End Connect.

Section ConnectClaims.

Variable net : HttpRequest -> HttpOutcome.

(** C3, as the code has it.  With the OpenAI provider selected, the
    health check of [_connect_client] is a GET of OpenRouter's model
    list carrying a key written into the source, whatever key the user
    supplied; the status label shows "Connected" exactly when the answer
    has status 200. *)
Theorem openai_health_check_ignores_key (a : App) :
  a.(api_provider) = "OpenAI" ->
  let r := exec net _connect_client a in
  requested (events r)
  = [ mkRequest GET "https://openrouter.ai/api/v1/models"
        [("Authorization",
          "Bearer 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")]
        None ]
  /\ ((final r).(status_label) = "● Connected"
      <-> exists resp, net (health_request a) = Responded resp
                       /\ resp.(status_code) = 200).
Proof.
  intro Hp. cbv zeta.
  destruct (exec_connect_client net a) as (Hrq & Hfin & _).
  rewrite Hrq, Hfin. clear Hrq Hfin.
  split; [ unfold health_request; rewrite Hp; reflexivity | ].
  destruct (net (health_request a)) as [msg | resp]; cbn.
  - split; [ intro H; discriminate H
           | intros (resp & H & _); discriminate H ].
  - destruct (Z.eqb_spec resp.(status_code) 200) as [E | E]; cbn.
    + split; [ intros _; exists resp; split; [ reflexivity | exact E ]
             | reflexivity ].
    + split; [ intro H; discriminate H | ].
      intros (resp' & H & E'). injection H as <-. contradiction.
Qed.

(** The OpenRouter branch does send the user's key. *)
Lemma openrouter_health_check_sends_key (a : App) :
  a.(api_provider) <> "OpenAI" ->
  requested (events (exec net _connect_client a))
  = [ mkRequest GET "https://openrouter.ai/api/v1/models"
        [("Authorization", ("Bearer " ++ a.(api_key))%string)] None ].
Proof.
  intro Hp. destruct (exec_connect_client net a) as (Hrq & _).
  rewrite Hrq. unfold health_request.
  apply String.eqb_neq in Hp. rewrite Hp. reflexivity.
Qed.

(** C7, as the code has it.  A health check that does not pass sets the
    status label to "Error" and leaves [client] as it was.  So when the
    window was connected before, [client] is still set, and a following
    [_send_message] is accepted: it starts a worker. *)
Theorem failed_connect_keeps_client (a : App) :
  health_check_passes (net (health_request a)) = false ->
  let a' := final (exec net _connect_client a) in
  a'.(status_label) = "● Error"
  /\ a'.(client) = a.(client)
  /\ (truthy a.(client) = true ->
      PyStr.strip a.(input_box) <> "" ->
      PyStr.strip a.(input_box) <> PLACEHOLDER ->
      started (events (exec net _send_message a'))
      = [stream_response_target the_history]).
Proof.
  intro Hf. cbv zeta.
  destruct (exec_connect_client net a) as (_ & Hfin & _).
  rewrite Hfin, Hf. cbn [draw status_label client].
  split; [ reflexivity | split; [ reflexivity | ] ].
  intros Hc Hne Hph.
  rewrite send_accepted; [ reflexivity | exact Hc | exact Hne | exact Hph ].
Qed.

End ConnectClaims.

Lemma openai_health_check_ignores_key_witness :
  let a := mutate (set_api_key "sk-my-openai-key")
             (mutate (set_api_provider "OpenAI") fresh_app) in
  let r := exec (answering 200) _connect_client a in
  requested (events r)
  = [ mkRequest GET "https://openrouter.ai/api/v1/models"
        [("Authorization",
          "Bearer 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")]
        None ]
  /\ ((final r).(status_label) = "● Connected"
      <-> exists resp, answering 200 (health_request a) = Responded resp
                       /\ resp.(status_code) = 200).
Proof.
  intro a. apply (openai_health_check_ignores_key (answering 200) a).
  reflexivity.
Defined.

Lemma failed_connect_keeps_client_witness :
  let a' := final (exec (answering 401) _connect_client rekeyed_app) in
  a'.(status_label) = "● Error"
  /\ a'.(client) = Some true
  /\ started (events (exec (answering 401) _send_message a'))
     = [stream_response_target the_history].
Proof.
  destruct (failed_connect_keeps_client (answering 401) rekeyed_app)
    as (H1 & H2 & H3); [ reflexivity | ].
  split; [ exact H1 | split; [ exact H2 | ] ].
  apply H3; [ reflexivity | vm_compute; discriminate | vm_compute; discriminate ].
Defined.

(* ------------------------------------------------------------------ *)
(** ** Box breathing *)

Section Breathing.

Variable net : HttpRequest -> HttpOutcome.

(** C9, as amended.  A press of the breathing button while a session is
    running starts no thread: it clears the flag, resets the button and
    draws the "Ready" circle.  A thread is started only by a press that
    finds the flag clear, and that press sets the flag. *)
Theorem toggle_while_running_stops (a : App) :
  let r := exec net _toggle_breathing a in
  (a.(breathing) = true ->
   started (events r) = []
   /\ (final r).(breathing) = false
   /\ events r = [ EvAssign (set_breathing false);
                   EvWidget (breath_btn_configure "Start Breathing");
                   EvWidget (draw_breath_circle "Ready" 1) ])
  /\ (a.(breathing) = false ->
      started (events r) = [run_breathing_target]
      /\ (final r).(breathing) = true).
Proof.
  cbv zeta. unfold _toggle_breathing. cbn.
  split; intro H; rewrite H; cbn; repeat split; reflexivity.
Qed.

Lemma for_each_unbroken {X : Type} (xs : list X) (body : X -> Cmd bool)
      (a : App) (f : X -> list Event) :
  (forall x, In x xs -> exec net (body x) a = (CONTINUE, a, f x)) ->
  exec net (for_each xs body) a = (tt, a, flat_map f xs).
Proof.
  induction xs as [ | x xs IH ]; intro H; [ reflexivity | ].
  cbn [for_each flat_map]. rewrite exec_bind.
  rewrite (H x (or_introl eq_refl)). cbv beta iota zeta. unfold CONTINUE.
  rewrite IH; [ reflexivity | ].
  intros y Hy. apply H. right. exact Hy.
Qed.

Lemma exec_animate (label : string) (duration : Z) (a : App) :
  a.(breathing) = true ->
  exec net (animate label duration) a
  = (tt, a, phase_events (label, duration)).
Proof.
  intro Hb. unfold animate, phase_events.
  change (Z.to_nat (steps + 1)) with 31%nat.
  apply for_each_unbroken. intros i _. cbn. rewrite Hb. reflexivity.
Qed.

Lemma exec_cycle (a : App) :
  a.(breathing) = true ->
  exec net breathe_steps a = (tt, a, cycle_events).
Proof.
  intro Hb. unfold breathe_steps, cycle_events.
  apply for_each_unbroken. intros [label duration] _.
  cbn [bind self exec]. rewrite Hb. cbn [negb].
  rewrite exec_bind, exec_animate by exact Hb.
  cbn [exec]. rewrite app_nil_r. reflexivity.
Qed.

(** C8, as amended.  A breathing session that starts with the flag set
    and is left alone runs 4 cycles of inhale (4 s), hold (4 s), exhale
    (6 s), hold (4 s).  Each phase posts 31 frames, one for each tick
    [i = 0, ..., 30]; the scale of frame [i] is
    [start + (end - start) * i / 30], and every frame is followed by a
    sleep of a thirtieth of the phase's duration.  The session then
    clears the flag and posts the button reset and the "Done" circle. *)
Theorem uninterrupted_session (a : App) :
  a.(breathing) = true ->
  exec net _run_breathing a
  = (tt, mutate (set_breathing false) a, session_events)
  /\ (forall phase, List.length (posted (phase_events phase)) = 31%nat)
  /\ (forall label i,
        scale_at label i
        == start_scale + (end_scale label - start_scale) * (inject_Z i / 30))%Q
  /\ (forall duration, tick_sleep duration == inject_Z duration / 30)%Q.
Proof.
  intro Hb. split; [ | split; [ | split ] ].
  - unfold _run_breathing, session_events. rewrite exec_bind.
    rewrite (for_each_unbroken (range 4) _ a (fun _ => cycle_events)).
    + cbn [bind self exec]. rewrite Hb. reflexivity.
    + intros cycle _. cbn [bind self exec]. rewrite Hb. cbn [negb].
      rewrite exec_bind, exec_cycle by exact Hb.
      cbn [exec]. rewrite app_nil_r. reflexivity.
  - intros [label duration]. reflexivity.
  - intros label i. unfold scale_at. apply Qred_correct.
  - intro duration. unfold tick_sleep. apply Qred_correct.
Qed.

End Breathing.

Lemma toggle_while_running_stops_witness :
  let r := exec offline _toggle_breathing breathing_app in
  started (events r) = []
  /\ (final r).(breathing) = false
  /\ events r = [ EvAssign (set_breathing false);
                  EvWidget (breath_btn_configure "Start Breathing");
                  EvWidget (draw_breath_circle "Ready" 1) ].
Proof.
  destruct (toggle_while_running_stops offline breathing_app) as [H _].
  apply H. reflexivity.
Defined.

(** C9 as stated fails: the press that finds a session running does not
    leave the flag as it was. *)
Lemma toggle_while_running_changes_flag :
  ~ (forall (net : HttpRequest -> HttpOutcome) (a : App),
        a.(breathing) = true ->
        let r := exec net _toggle_breathing a in
        (final r).(breathing) = a.(breathing) /\ started (events r) = []).
Proof.
  intro H. destruct (H offline breathing_app eq_refl) as [H1 _].
  vm_compute in H1. discriminate H1.
Qed.

Lemma uninterrupted_session_witness :
  exec offline _run_breathing breathing_app
  = (tt, mutate (set_breathing false) breathing_app, session_events).
Proof.
  apply (uninterrupted_session offline breathing_app). reflexivity.
Defined.

(** C8 as stated fails: a phase that is left alone posts 31 frames, not
    30. *)
Lemma phase_posts_31_frames :
  ~ (forall label duration,
        In (label, duration) BOX_BREATHING_STEPS ->
        List.length (posted (events (exec offline (animate label duration)
                                     breathing_app))) = 30%nat).
Proof.
  intro H. specialize (H "Inhale…" 4 (or_introl eq_refl)).
  rewrite exec_animate in H by reflexivity.
  vm_compute in H. discriminate H.
Qed.

(* ------------------------------------------------------------------ *)
(** ** Threads *)

Lemma only_bind (P : Event -> Prop) {A B : Type} (c : Cmd A) (f : A -> Cmd B) :
  only P c -> (forall x, only P (f x)) -> only P (bind c f).
Proof.
  intros Hc Hf. induction Hc; cbn [bind]; try (constructor; auto); auto.
Qed.

Lemma only_for_each (P : Event -> Prop) {X : Type} (xs : list X)
      (body : X -> Cmd bool) :
  (forall x, only P (body x)) -> only P (for_each xs body).
Proof.
  intro Hb. induction xs as [ | x xs IH ]; cbn [for_each].
  - constructor.
  - apply only_bind; [ apply Hb | ].
    intros [ | ]; [ exact IH | constructor ].
Qed.

Lemma exec_only (P : Event -> Prop) {A : Type}
      (net : HttpRequest -> HttpOutcome) (c : Cmd A) :
  only P c -> forall a, Forall P (events (exec net c a)).
Proof.
  unfold events.
  induction 1 as [ x | k _ IH | m k Hm _ IH | w k Hw _ IH | w k Hw _ IH
                   | t k Ht _ IH | rq k Hrq _ IH | kind title message k Hb _ IH
                   | line k Hl _ IH | d k Hd _ IH ];
    intro a; cbn [exec].
  - constructor.
  - apply IH.
  - specialize (IH (mutate m a)).
    destruct (exec net k (mutate m a)) as [[x a'] evs]. constructor; assumption.
  - specialize (IH (draw w a)).
    destruct (exec net k (draw w a)) as [[x a'] evs]. constructor; assumption.
  - specialize (IH a).
    destruct (exec net k a) as [[x a'] evs]. constructor; assumption.
  - specialize (IH a).
    destruct (exec net k a) as [[x a'] evs]. constructor; assumption.
  - specialize (IH (net rq) a).
    destruct (exec net (k (net rq)) a) as [[x a'] evs]. constructor; assumption.
  - specialize (IH a).
    destruct (exec net k a) as [[x a'] evs]. constructor; assumption.
  - specialize (IH a).
    destruct (exec net k a) as [[x a'] evs]. constructor; assumption.
  - specialize (IH a).
    destruct (exec net k a) as [[x a'] evs]. constructor; assumption.
Qed.

Lemma worker_node_only (P : Event -> Prop) (o : HttpOutcome)
      (c c' : Cmd unit) (a a' : App) (evs : list Event) :
  only P c -> worker_node o c a = Some (c', a', evs) ->
  only P c' /\ Forall P evs.
Proof.
  intros Hc Hn.
  destruct Hc; cbn [worker_node] in Hn; try discriminate Hn;
    injection Hn as <- <- <-; split; auto.
Qed.

(** Solves [only P c] for the methods, branch by branch. *)
Ltac only_steps :=
  repeat first
    [ progress intros
    | apply only_bind
    | apply only_for_each
    | match goal with
      | |- only _ (if ?b then _ else _) => destruct b
      | |- only _ (match ?o with inl _ => _ | inr _ => _ end) => destruct o
      | |- only _ (match ?o with Raised _ => _ | Responded _ => _ end) => destruct o
      | |- only _ (let '(_, _) := ?p in _) => destruct p
      end
    | constructor
    | exact I
    | reflexivity ].

Lemma stream_response_only (messages : MessagesArg) :
  only worker_event (_stream_response messages).
Proof.
  unfold _stream_response, stream_finish, stream_except,
    self, after, assign, http.
  only_steps.
Qed.

Lemma run_breathing_only : only worker_event _run_breathing.
Proof.
  unfold _run_breathing, breathe_steps, animate, self, after, assign, sleep.
  only_steps.
Qed.

Lemma target_body_only (t : Target) : only worker_event (target_body t).
Proof.
  destruct t; [ apply stream_response_only | apply run_breathing_only ].
Qed.

Lemma handler_only (u : UserAction) : only ui_event (handler u).
Proof.
  destruct u; cbn [handler];
    unfold _on_provider_change, _update_key_entry, _on_connect,
      _connect_client, connect_except, _send_greeting, _send_quick,
      _send_message, _toggle_breathing, _clear_placeholder,
      _restore_placeholder,
      self, after, assign, widget, thread_start, http, messagebox, stdout;
    only_steps.
Qed.

Lemma worker_events_start_nothing (evs : list Event) :
  Forall worker_event evs -> started evs = [].
Proof.
  induction 1 as [ | e evs He _ IH ]; [ reflexivity | ].
  destruct e; cbn [started]; try exact IH. elim He.
Qed.

Lemma Forall_set_nth {X : Type} (P : X -> Prop) (n : nat) (x : X) (l : list X) :
  P x -> Forall P l -> Forall P (set_nth n x l).
Proof.
  intros Hx Hl. revert n.
  induction Hl as [ | y l Hy Hl IH ]; intros [ | n ]; cbn [set_nth];
    constructor; auto.
Qed.

Lemma Forall_tag (t : Thread) (evs : list Event) :
  Forall (fun e => by_thread (t, e)) evs -> Forall by_thread (tag t evs).
Proof.
  unfold tag. induction 1; cbn [map]; constructor; assumption.
Qed.

Lemma step_well_threaded (s s' : System) :
  step s s' -> well_threaded s -> well_threaded s'.
Proof.
  intros Hstep [Hw Hl].
  destruct Hstep as [ s u net r Hr | s w q Hq | s n c o c' a' evs Hn Hnode ];
    split; cbn [workers log].
  - apply Forall_app. split; [ exact Hw | ].
    apply Forall_forall. intros c Hc. apply in_map_iff in Hc.
    destruct Hc as (t & <- & _). apply target_body_only.
  - apply Forall_app. split; [ exact Hl | ].
    apply Forall_tag. subst r. apply exec_only.
    apply handler_only.
  - exact Hw.
  - apply Forall_app. split; [ exact Hl | ].
    constructor; [ exact I | constructor ].
  - assert (Hc : only worker_event c).
    { rewrite Forall_forall in Hw. apply Hw.
      eapply nth_error_In; exact Hn. }
    destruct (worker_node_only worker_event o c c' s.(app) a' evs Hc Hnode) as [Hc' Hevs].
    rewrite (worker_events_start_nothing evs Hevs). cbn [map].
    rewrite app_nil_r. apply Forall_set_nth; assumption.
  - assert (Hc : only worker_event c).
    { rewrite Forall_forall in Hw. apply Hw.
      eapply nth_error_In; exact Hn. }
    destruct (worker_node_only worker_event o c c' s.(app) a' evs Hc Hnode) as [_ Hevs].
    apply Forall_app. split; [ exact Hl | ].
    apply Forall_tag. exact Hevs.
Qed.

Lemma steps_well_threaded (s s' : System) :
  steps_to s s' -> well_threaded s -> well_threaded s'.
Proof.
  induction 1 as [ s | s1 s2 s3 _ IH Hstep ]; intro H0.
  - exact H0.
  - eapply step_well_threaded; [ exact Hstep | auto ].
Qed.

Lemma reachable_well_threaded (s : System) : reachable s -> well_threaded s.
Proof.
  intro H. apply (steps_well_threaded fresh s H). split; constructor.
Qed.

Lemma steps_to_trans (s1 s2 s3 : System) :
  steps_to s1 s2 -> steps_to s2 s3 -> steps_to s1 s3.
Proof.
  intros H12 H23. induction H23 as [ s | s2 s3 s4 _ IH Hstep ].
  - exact H12.
  - eapply steps_more; [ apply IH; exact H12 | exact Hstep ].
Qed.

Lemma schedule1_step (ch : Choice) (s s' : System) :
  schedule1 ch s = Some s' -> step s s'.
Proof.
  destruct ch as [ u net | | n o ]; cbn [schedule1].
  - intro H. injection H as <-. eapply step_user. reflexivity.
  - destruct s.(after_queue) as [ | w q ] eqn:Hq; [ discriminate | ].
    intro H. injection H as <-. apply step_callback. exact Hq.
  - destruct (nth_error s.(workers) n) as [ c | ] eqn:Hn; [ | discriminate ].
    destruct (worker_node o c s.(app)) as [ [[c' a'] evs] | ] eqn:Hnode;
      [ | discriminate ].
    intro H. injection H as <-. eapply step_worker; eassumption.
Qed.

Lemma schedule_steps (chs : list Choice) (s s' : System) :
  schedule chs s = Some s' -> steps_to s s'.
Proof.
  revert s. induction chs as [ | ch chs IH ]; intro s; cbn [schedule].
  - intro H. injection H as <-. constructor.
  - destruct (schedule1 ch s) as [ s1 | ] eqn:H1; [ | discriminate ].
    intro H. apply (steps_to_trans s s1 s'); [ | apply IH; exact H ].
    apply (steps_more s s s1).
    + apply steps_refl.
    + apply (schedule1_step ch); exact H1.
Qed.

(** C1, as amended.  In every state the window can reach, under any
    interleaving of user actions, posted callbacks and worker steps:
    every widget call in the log was made by the main loop, so a worker
    reaches the widgets only through [root.after]; and every append to
    [conversation_history] is either the main loop appending a user
    message or a worker thread appending an assistant message itself. *)
Theorem single_writer_of_widgets (s : System) (t : Thread) (e : Event) :
  reachable s ->
  In (t, e) s.(log) ->
  (forall w, e = EvWidget w -> t = UI)
  /\ (forall m, e = EvAssign (conversation_history_append m) ->
        (t = UI /\ m.(role) = "user")
        \/ (exists n, t = Worker n /\ m.(role) = "assistant")).
Proof.
  intros Hr Hin.
  destruct (reachable_well_threaded s Hr) as [_ Hlog].
  rewrite Forall_forall in Hlog. specialize (Hlog (t, e) Hin).
  unfold by_thread in Hlog. cbn [fst snd] in Hlog.
  split.
  - intros w ->. destruct t as [ | n ]; [ reflexivity | elim Hlog ].
  - intros m ->. destruct t as [ | n ]; cbn in Hlog.
    + left. split; [ reflexivity | exact Hlog ].
    + right. exists n. split; [ reflexivity | exact Hlog ].
Qed.

(** The state after [one_turn]. *)
Lemma one_turn_runs :
  exists s, schedule one_turn fresh = Some s
            /\ In (Worker 1,
                   EvAssign (conversation_history_append
                               (mkMessage "assistant" "Hello")))
                  s.(log)
            /\ s.(after_queue)
               = [show_thinking; start_bot_message "Solace"; append_chunk "Hello"].
Proof.
  vm_compute. eexists. split; [ reflexivity | ]. split; [ | reflexivity ].
  cbn [In log]. repeat (first [ left; reflexivity | right ]).
Qed.

(** C1 as stated fails: after a successful provider call the assistant
    message is appended by the worker thread itself. *)
Lemma assistant_appended_on_worker :
  ~ (forall (s : System) (t : Thread) (m : Message),
        reachable s ->
        In (t, EvAssign (conversation_history_append m)) s.(log) ->
        t = UI).
Proof.
  intro H. destruct one_turn_runs as (s & Hs & Hin & _).
  apply schedule_steps in Hs.
  specialize (H s (Worker 1) (mkMessage "assistant" "Hello") Hs Hin).
  discriminate H.
Qed.

Lemma single_writer_of_widgets_witness :
  (forall w,
      EvAssign (conversation_history_append (mkMessage "assistant" "Hello"))
      = EvWidget w -> Worker 1 = UI)
  /\ (forall m,
        EvAssign (conversation_history_append (mkMessage "assistant" "Hello"))
        = EvAssign (conversation_history_append m) ->
        (Worker 1 = UI /\ m.(role) = "user")
        \/ (exists n, Worker 1 = Worker n /\ m.(role) = "assistant")).
Proof.
  apply (single_writer_of_widgets after_one_turn (Worker 1)
           (EvAssign (conversation_history_append
                        (mkMessage "assistant" "Hello")))).
  - apply (schedule_steps one_turn). vm_compute. reflexivity.
  - vm_compute. repeat (first [ left; reflexivity | right ]).
Defined.

(** The flag does not keep the breathing workers down to one: a stop
    followed at once by a start leaves the old worker running beside the
    new one, and the old worker goes on posting frames. *)
Remark two_breathing_workers :
  exists s, reachable s
            /\ alive 0 s = true /\ alive 1 s = true
            /\ s.(log)
               = [ (UI, EvAssign (set_breathing true));
                   (UI, EvWidget (breath_btn_configure "Stop"));
                   (UI, EvThreadStart run_breathing_target);
                   (Worker 0, EvAfter (draw_breath_circle "Inhale (4s)" 1));
                   (Worker 0, EvSleep (2 # 15));
                   (UI, EvAssign (set_breathing false));
                   (UI, EvWidget (breath_btn_configure "Start Breathing"));
                   (UI, EvWidget (draw_breath_circle "Ready" 1));
                   (UI, EvAssign (set_breathing true));
                   (UI, EvWidget (breath_btn_configure "Stop"));
                   (UI, EvThreadStart run_breathing_target);
                   (Worker 0,
                    EvAfter (draw_breath_circle "Inhale (4s)" (607 # 600))) ].
Proof.
  assert (H : option_map (fun s => (alive 0 s, alive 1 s, s.(log)))
                         (schedule stop_and_restart fresh)
              = Some (true, true,
                      [ (UI, EvAssign (set_breathing true));
                        (UI, EvWidget (breath_btn_configure "Stop"));
                        (UI, EvThreadStart run_breathing_target);
                        (Worker 0, EvAfter (draw_breath_circle "Inhale (4s)" 1));
                        (Worker 0, EvSleep (2 # 15));
                        (UI, EvAssign (set_breathing false));
                        (UI, EvWidget (breath_btn_configure "Start Breathing"));
                        (UI, EvWidget (draw_breath_circle "Ready" 1));
                        (UI, EvAssign (set_breathing true));
                        (UI, EvWidget (breath_btn_configure "Stop"));
                        (UI, EvThreadStart run_breathing_target);
                        (Worker 0,
                         EvAfter (draw_breath_circle "Inhale (4s)" (607 # 600))) ]))
    by (vm_compute; reflexivity).
  destruct (schedule stop_and_restart fresh) as [ s | ] eqn:E;
    [ | discriminate H ].
  cbn [option_map] in H. injection H as H0 H1 H2.
  exists s. split; [ apply (schedule_steps stop_and_restart); exact E | ].
  repeat split; assumption.
Qed.

(* ------------------------------------------------------------------ *)
(** ** Further properties of the methods *)

Lemma posted_app (l1 l2 : list Event) : posted (l1 ++ l2) = posted l1 ++ posted l2.
Proof.
  induction l1 as [ | e l1 IH ]; [ reflexivity | ].
  destruct e; simpl; rewrite IH; reflexivity.
Qed.

Lemma started_app (l1 l2 : list Event) :
  started (l1 ++ l2) = started l1 ++ started l2.
Proof.
  induction l1 as [ | e l1 IH ]; [ reflexivity | ].
  destruct e; simpl; rewrite IH; reflexivity.
Qed.

Lemma appended_app (l1 l2 : list Event) :
  appended (l1 ++ l2) = appended l1 ++ appended l2.
Proof.
  induction l1 as [ | e l1 IH ]; [ reflexivity | ].
  destruct e as [ m | | | | | | | ]; try destruct m; simpl;
    rewrite IH; reflexivity.
Qed.

Lemma requested_app (l1 l2 : list Event) :
  requested (l1 ++ l2) = requested l1 ++ requested l2.
Proof.
  induction l1 as [ | e l1 IH ]; [ reflexivity | ].
  destruct e; simpl; rewrite IH; reflexivity.
Qed.

Lemma append_empty (s : string) : (s ++ "")%string = s.
Proof.
  induction s as [ | c s IH ]; [ reflexivity | ].
  change ((String c s ++ "")%string) with (String c (s ++ "")%string).
  rewrite IH. reflexivity.
Qed.

(* ------------------------------------------------------------------ *)
(** ** Connecting, continued *)

Arguments _connect_client : simpl never.

Section OnConnect.

Variable net : HttpRequest -> HttpOutcome.

Lemma exec_on_connect (a : App) :
  PyStr.strip a.(key_entry) <> ""%string ->
  let key := PyStr.strip a.(key_entry) in
  let rc := exec net _connect_client (keyed a) in
  exec net _on_connect a
  = (tt, final rc,
     [ EvAssign (set_api_key key);
       EvAssign (if (a.(api_provider) =? "OpenAI")%string
                 then set_openai_api_key key else set_openrouter_api_key key) ]
     ++ events rc
     ++ (if andb (truthy (final rc).(client))
                 (match (final rc).(conversation_history) with
                  | [] => true | _ => false end)
         then [EvThreadStart greeting_target] else [])).
Proof.
  intros Hk key rc. subst key rc. unfold _on_connect, keyed.
  cbn [bind self exec]. rewrite (falsy_nonempty _ Hk). cbn.
  destruct (a.(api_provider) =? "OpenAI")%string; cbn;
    rewrite exec_bind;
    match goal with
    | |- context [exec net _connect_client ?st] =>
        destruct (exec net _connect_client st) as [[[] a1] e1]
    end;
    cbn; destruct (truthy a1.(client)); cbn;
    try destruct a1.(conversation_history); reflexivity.
Qed.

(** X1.  With a key entry that is empty or blank, [_on_connect] shows
    the "Missing Key" error naming the selected provider and does nothing
    else: no attribute changes, no request is sent. *)
Theorem connect_without_key (a : App) :
  PyStr.strip a.(key_entry) = ""%string ->
  exec net _on_connect a
  = (tt, a,
     [EvMessageBox showerror "Missing Key"
        ("Please enter your " ++ a.(provider_var) ++ " API key.")%string]).
Proof.
  intro Hk. unfold _on_connect. cbn [bind self exec]. rewrite Hk. reflexivity.
Qed.

(** X2.  With a key entry that is not blank, [_on_connect] stores the
    stripped key as [api_key] and as the selected provider's key before
    it checks anything, and the key stays stored whatever the health
    check answers.  It sends exactly one request; under a provider other
    than OpenAI that request carries the stripped key. *)
Theorem connect_stores_key_first (a : App) :
  PyStr.strip a.(key_entry) <> ""%string ->
  let key := PyStr.strip a.(key_entry) in
  let r := exec net _on_connect a in
  (final r).(api_key) = key
  /\ (if (a.(api_provider) =? "OpenAI")%string
      then (final r).(openai_api_key) = key
           /\ (final r).(openrouter_api_key) = a.(openrouter_api_key)
      else (final r).(openrouter_api_key) = key
           /\ (final r).(openai_api_key) = a.(openai_api_key))
  /\ List.length (requested (events r)) = 1%nat
  /\ (a.(api_provider) <> "OpenAI"%string ->
      requested (events r)
      = [ mkRequest GET "https://openrouter.ai/api/v1/models"
            [("Authorization", ("Bearer " ++ key)%string)] None ]).
Proof.
  intros Hk key r. subst r. rewrite (exec_on_connect a Hk).
  destruct (exec_connect_client net (keyed a)) as (Hrq & Hfin & _ & _).
  cbv zeta in Hrq, Hfin. unfold final, events in *. cbn [fst snd].
  assert (Htail : forall b : bool,
             requested (if b then [EvThreadStart greeting_target] else []) = [])
    by (intros []; reflexivity).
  rewrite !requested_app, Htail, Hrq, Hfin. cbn [requested List.app].
  fold key. unfold health_request, keyed. fold key.
  destruct (health_check_passes _);
    destruct (a.(api_provider) =? "OpenAI")%string eqn:Hp; cbn;
    repeat split; try reflexivity;
    intro Hne; apply String.eqb_neq in Hne; try congruence;
    rewrite ?Hp; reflexivity.
Qed.

(** X3.  After a key that is not blank, [_on_connect] starts the greeting
    worker exactly when the transcript is empty and [client] is set once
    [_connect_client] is back: that is, when the health check passed or
    the window was connected before.  The worker is started on a list of
    its own holding the one user message "Hello". *)
Theorem connect_greets_once_connected (a : App) :
  PyStr.strip a.(key_entry) <> ""%string ->
  let r := exec net _on_connect a in
  started (events r)
  = (if andb (orb (health_check_passes (net (health_request (keyed a))))
                  (truthy a.(client)))
             (match a.(conversation_history) with [] => true | _ => false end)
     then [stream_response_target (own_list [mkMessage "user" "Hello"])]
     else [])
  /\ (final r).(conversation_history) = a.(conversation_history)
  /\ (final r).(client)
     = (if health_check_passes (net (health_request (keyed a)))
        then Some true else a.(client)).
Proof.
  intros Hk r. subst r. rewrite (exec_on_connect a Hk).
  destruct (exec_connect_client net (keyed a)) as (_ & Hfin & Hst & _).
  cbn [final events fst snd]. unfold final in Hfin |- *.
  rewrite !started_app, Hst, Hfin.
  assert (Hh : (keyed a).(conversation_history) = a.(conversation_history)).
  { unfold keyed. destruct (a.(api_provider) =? "OpenAI")%string; reflexivity. }
  assert (Hc : (keyed a).(client) = a.(client)).
  { unfold keyed. destruct (a.(api_provider) =? "OpenAI")%string; reflexivity. }
  destruct (health_check_passes _); cbn; rewrite Hh, ?Hc;
    destruct (truthy a.(client)); destruct a.(conversation_history);
    repeat split; reflexivity.
Qed.

End OnConnect.

Lemma connect_without_key_witness :
  exec offline _on_connect (set_widgets "OpenAI" "   " "" fresh_app)
  = (tt, set_widgets "OpenAI" "   " "" fresh_app,
     [EvMessageBox showerror "Missing Key" "Please enter your OpenAI API key."]).
Proof.
  apply (connect_without_key offline (set_widgets "OpenAI" "   " "" fresh_app)).
  reflexivity.
Defined.

Lemma connect_stores_key_first_witness :
  let a := set_widgets "OpenRouter" "  sk-typed " "" fresh_app in
  let r := exec (answering 401) _on_connect a in
  (final r).(api_key) = "sk-typed"%string
  /\ (final r).(openrouter_api_key) = "sk-typed"%string
  /\ requested (events r)
     = [ mkRequest GET "https://openrouter.ai/api/v1/models"
           [("Authorization", "Bearer sk-typed"%string)] None ].
Proof.
  intros a r.
  destruct (connect_stores_key_first (answering 401) a) as (H1 & H2 & _ & H4).
  - vm_compute. discriminate.
  - split; [ exact H1 | split; [ apply H2 | ] ].
    apply H4. vm_compute. discriminate.
Defined.

Lemma connect_greets_once_connected_witness :
  let r := exec (answering 401) _on_connect rekeyed_app in
  started (events r)
  = [stream_response_target (own_list [mkMessage "user" "Hello"])]
  /\ (final r).(conversation_history) = []
  /\ (final r).(client) = Some true.
Proof.
  apply (connect_greets_once_connected (answering 401) rekeyed_app).
  vm_compute. discriminate.
Defined.

(* ------------------------------------------------------------------ *)
(** ** The provider call, continued *)

Section Requests.

Variable net : HttpRequest -> HttpOutcome.

(** X4.  A greeting that succeeds adds one message to the transcript, the
    assistant's reply: the synthetic user message "Hello" goes to the
    provider, after the system prompt and without the transcript, and is
    never recorded. *)
Theorem greeting_records_reply_only (a : App) (text : string) :
  provider_call_succeeds (net (stream_request (own_list [mkMessage "user" "Hello"]) a))
                         text ->
  let r := exec net (_stream_response (own_list [mkMessage "user" "Hello"])) a in
  (final r).(conversation_history)
  = a.(conversation_history) ++ [mkMessage "assistant" text]
  /\ appended (events r) = [mkMessage "assistant" text]
  /\ exists rq p,
       requested (events r) = [rq]
       /\ rq.(json_payload) = Some p
       /\ p.(messages)
          = [mkMessage "system" SYSTEM_PROMPT; mkMessage "user" "Hello"].
Proof.
  intro Hs. apply succeeds_iff in Hs.
  cbv zeta. rewrite exec_stream_response. cbv zeta. rewrite Hs.
  cbn [final events fst snd appended requested mutate conversation_history].
  split; [ reflexivity | split; [ reflexivity | ] ].
  unfold stream_request.
  destruct (a.(api_provider) =? "OpenAI")%string;
    eexists; eexists; repeat split.
Qed.


(** X6.  A reply is posted for rendering exactly when the response has
    status 200 and a string at [choices[0].message.content]; what is
    posted is that string stripped.  No other response ever reaches the
    chat display as a reply. *)
Theorem reply_rendered_iff (messages_arg : MessagesArg) (a : App)
        (text : string) :
  In (append_chunk text)
     (posted (events (exec net (_stream_response messages_arg) a)))
  <-> provider_call_succeeds (net (stream_request messages_arg a)) text.
Proof.
  rewrite exec_stream_response. cbv zeta. rewrite succeeds_iff.
  destruct (completion_text _) as [ e | t ];
    cbn [events snd posted In]; split.
  - intros [H | [H | [H | []]]]; discriminate H.
  - intro H; discriminate H.
  - intros [H | [H | [H | [H | []]]]]; try discriminate H.
    injection H as ->. reflexivity.
  - intro H. injection H as ->. right; right; left. reflexivity.
Qed.

End Requests.

Lemma greeting_records_reply_only_witness :
  let r := exec (replying "Hi, I'm here.")
                (_stream_response (own_list [mkMessage "user" "Hello"]))
                (connected_app "") in
  (final r).(conversation_history) = [mkMessage "assistant" "Hi, I'm here."].
Proof.
  intro r.
  destruct (greeting_records_reply_only (replying "Hi, I'm here.")
              (connected_app "") "Hi, I'm here.") as (H & _).
  - apply (succeeds_iff _ "Hi, I'm here."). reflexivity.
  - exact H.
Defined.

(* ------------------------------------------------------------------ *)
(** ** The input box *)

Lemma quick_prompts_plain :
  Forall (fun p => PyStr.strip p = p /\ p <> ""%string /\ p <> PLACEHOLDER)
         QUICK_PROMPTS.
Proof.
  unfold QUICK_PROMPTS.
  repeat (constructor;
          [ split; [ vm_compute; reflexivity
                   | split; [ discriminate | vm_compute; discriminate ] ] | ]).
  constructor.
Qed.

Lemma append_eq_self (p b : string) : (p ++ b)%string = p -> b = ""%string.
Proof.
  induction p as [ | c p IH ].
  - intro H. exact H.
  - change ((String c p ++ b)%string) with (String c (p ++ b)%string).
    intro H. injection H as H. apply IH. exact H.
Qed.

Section InputBox.

Variable net : HttpRequest -> HttpOutcome.

(** The state in which [_send_quick] calls [_send_message]. *)
Lemma exec_send_quick (prompt : string) (a : App) :
  let a1 := set_widgets a.(provider_var) a.(key_entry) prompt a in
  exec net (_send_quick prompt) a
  = (tt, final (exec net _send_message a1),
     [ EvWidget input_box_delete;
       EvWidget (input_box_configure TEXT_PRIMARY);
       EvWidget (input_box_insert prompt) ]
     ++ events (exec net _send_message a1)).
Proof.
  cbv zeta. unfold _send_quick. cbn [bind widget exec draw].
  cbn [api_provider api_key openai_api_key openrouter_api_key client
       conversation_history breathing provider_var key_entry input_box
       status_label breath_btn].
  rewrite append_empty. unfold set_widgets.
  destruct (exec net _send_message _) as [[[] a2] evs]. reflexivity.
Qed.

(** X7.  Each quick-start button, pressed while connected, sends its own
    text whatever the input box held: the transcript grows by the one
    user message with the button's text, one worker is started and the
    box is left empty.  Pressed while not connected, it leaves its text in
    the box and only the warning is shown. *)
Theorem quick_prompt_sends_itself (prompt : string) (a : App) :
  In prompt QUICK_PROMPTS ->
  let r := exec net (_send_quick prompt) a in
  (truthy a.(client) = true ->
   (final r).(conversation_history)
   = a.(conversation_history) ++ [mkMessage "user" prompt]
   /\ started (events r) = [stream_response_target the_history]
   /\ (final r).(input_box) = ""%string)
  /\ (truthy a.(client) = false ->
      (final r).(conversation_history) = a.(conversation_history)
      /\ started (events r) = []
      /\ (final r).(input_box) = prompt
      /\ exists message,
           events r
           = [ EvWidget input_box_delete;
               EvWidget (input_box_configure TEXT_PRIMARY);
               EvWidget (input_box_insert prompt);
               EvMessageBox showwarning "Not Connected" message ]).
Proof.
  intros Hin r. subst r. rewrite exec_send_quick. cbv zeta.
  pose proof quick_prompts_plain as Hall.
  rewrite Forall_forall in Hall. destruct (Hall prompt Hin) as (Hs & Hne & Hph).
  cbn [final events fst snd]. split; intro Hc.
  - rewrite send_accepted.
    + cbn [fst snd input_box set_widgets]. rewrite Hs.
      repeat split.
    + exact Hc.
    + cbn [input_box set_widgets]. rewrite Hs. exact Hne.
    + cbn [input_box set_widgets]. rewrite Hs. exact Hph.
  - rewrite send_not_connected by exact Hc.
    cbn [fst snd]. repeat split. eexists. reflexivity.
Qed.

(** X8.  A second [_send_message] straight after an accepted one does
    nothing: the first one has emptied the box, so the same text is not
    sent twice. *)
Theorem second_send_is_ignored (a : App) :
  truthy a.(client) = true ->
  PyStr.strip a.(input_box) <> ""%string ->
  PyStr.strip a.(input_box) <> PLACEHOLDER ->
  let a1 := final (exec net _send_message a) in
  exec net _send_message a1 = (tt, a1, []).
Proof.
  intros Hc Hne Hph. cbv zeta. rewrite (send_accepted net a Hc Hne Hph).
  cbn [final fst snd]. apply send_ignored; [ exact Hc | left; reflexivity ].
Qed.

(** X9.  Leaving a blank input box puts the placeholder in front of what
    the box holds; entering the box again clears it only if it holds the
    placeholder and nothing else.  So an empty box comes back empty,
    while a box of blanks keeps the placeholder followed by the blanks. *)
Theorem placeholder_round_trip (a : App) :
  PyStr.strip a.(input_box) = ""%string ->
  let a1 := final (exec net _restore_placeholder a) in
  let a2 := final (exec net _clear_placeholder a1) in
  a1.(input_box) = (PLACEHOLDER ++ a.(input_box))%string
  /\ (a.(input_box) = ""%string -> a2.(input_box) = ""%string)
  /\ (a.(input_box) <> ""%string -> a2.(input_box) = a1.(input_box)).
Proof.
  intro Hb. cbv zeta.
  assert (H1 : final (exec net _restore_placeholder a)
               = draw (input_box_configure TEXT_DIM)
                      (draw (input_box_insert PLACEHOLDER) a)).
  { unfold _restore_placeholder. cbn [bind self exec]. rewrite Hb. reflexivity. }
  rewrite H1. cbn [draw input_box].
  split; [ reflexivity | split ].
  - intro He. rewrite He. reflexivity.
  - intro Hne. unfold _clear_placeholder. cbn [bind self exec input_box].
    destruct (String.eqb_spec (PLACEHOLDER ++ a.(input_box))%string PLACEHOLDER)
      as [E | E].
    + elim Hne. exact (append_eq_self _ _ E).
    + reflexivity.
Qed.

(** The state after the user picks [p] in the provider menu. *)
Lemma exec_provider_change (a : App) :
  exec net _on_provider_change a
  = (let key := if (a.(provider_var) =? "OpenAI")%string
                then a.(openai_api_key) else a.(openrouter_api_key) in
     let a1 := mkApp a.(provider_var) key a.(openai_api_key)
                     a.(openrouter_api_key) a.(client)
                     a.(conversation_history) a.(breathing)
                     a.(provider_var) key a.(input_box)
                     a.(status_label) a.(breath_btn) in
     (tt, a1,
      [ EvAssign (set_api_provider a.(provider_var));
        EvWidget key_entry_delete;
        EvAssign (set_api_key key) ]
      ++ (if PyStr.falsy key then [] else [EvWidget (key_entry_insert key)]))).
Proof.
  unfold _on_provider_change, _update_key_entry. cbn.
  destruct (a.(provider_var) =? "OpenAI")%string; cbn.
  - destruct a.(openai_api_key) as [ | c k ]; cbn;
      rewrite ?append_empty; reflexivity.
  - destruct a.(openrouter_api_key) as [ | c k ]; cbn;
      rewrite ?append_empty; reflexivity.
Qed.

(** X10.  Picking a provider makes it the current one and swaps in the
    key stored for it, in [api_key] and in the key entry (which stays
    empty when no key is stored).  Nothing else moves: the stored keys,
    the transcript and [client] are as before, so a connected window
    stays connected across the switch, and no request is sent. *)
Theorem provider_change_swaps_key (p : string) (a : App) :
  let a0 := tk_input (select_provider p) a in
  let r := exec net (handler (select_provider p)) a0 in
  let key := if (p =? "OpenAI")%string
             then a.(openai_api_key) else a.(openrouter_api_key) in
  (final r).(api_provider) = p
  /\ (final r).(api_key) = key
  /\ (final r).(key_entry) = key
  /\ (final r).(openai_api_key) = a.(openai_api_key)
  /\ (final r).(openrouter_api_key) = a.(openrouter_api_key)
  /\ (final r).(client) = a.(client)
  /\ (final r).(conversation_history) = a.(conversation_history)
  /\ requested (events r) = []
  /\ started (events r) = [].
Proof.
  cbv zeta. cbn [handler]. rewrite exec_provider_change.
  cbn [tk_input set_widgets provider_var openai_api_key openrouter_api_key
       client conversation_history final events fst snd
       api_provider api_key key_entry].
  repeat split; destruct (PyStr.falsy _); reflexivity.
Qed.

End InputBox.

Lemma quick_prompt_sends_itself_witness :
  let r := exec offline (_send_quick "I can't sleep")
                (connected_app "half-typed text") in
  (final r).(conversation_history) = [mkMessage "user" "I can't sleep"]
  /\ started (events r) = [stream_response_target the_history]
  /\ (final r).(input_box) = ""%string.
Proof.
  destruct (quick_prompt_sends_itself offline "I can't sleep"
              (connected_app "half-typed text")) as [H _].
  - right; left; reflexivity.
  - apply H. reflexivity.
Defined.

Lemma second_send_is_ignored_witness :
  let a1 := final (exec offline _send_message (connected_app "hello there")) in
  exec offline _send_message a1 = (tt, a1, []).
Proof.
  apply (second_send_is_ignored offline (connected_app "hello there")).
  - reflexivity.
  - vm_compute. discriminate.
  - vm_compute. discriminate.
Defined.

Lemma placeholder_round_trip_witness :
  let a := connected_app "  " in
  let a1 := final (exec offline _restore_placeholder a) in
  let a2 := final (exec offline _clear_placeholder a1) in
  a1.(input_box) = (PLACEHOLDER ++ "  ")%string
  /\ a2.(input_box) = a1.(input_box).
Proof.
  intros a a1 a2.
  destruct (placeholder_round_trip offline a) as (H1 & _ & H3).
  - reflexivity.
  - split; [ exact H1 | apply H3; discriminate ].
Defined.

(* ------------------------------------------------------------------ *)
(** ** Invariants of the running window *)

Lemma only_weaken (P Q : Event -> Prop) {A : Type} (c : Cmd A) :
  (forall e, P e -> Q e) -> only P c -> only Q c.
Proof.
  intros HPQ Hc. induction Hc; constructor; auto.
Qed.

Lemma history_mutate (m : Mutation) (a : App) :
  (mutate m a).(conversation_history)
  = a.(conversation_history) ++ appended [EvAssign m].
Proof.
  destruct m; cbn; rewrite ?app_nil_r; reflexivity.
Qed.

Lemma history_draw (w : WidgetCall) (a : App) :
  (draw w a).(conversation_history) = a.(conversation_history).
Proof. destruct w; reflexivity. Qed.

Lemma client_draw (w : WidgetCall) (a : App) : (draw w a).(client) = a.(client).
Proof. destruct w; reflexivity. Qed.

(** Whatever a method does, the transcript it leaves is the one it found
    followed by what it appended. *)
Lemma history_exec {A : Type} (net : HttpRequest -> HttpOutcome)
      (c : Cmd A) (a : App) :
  (final (exec net c a)).(conversation_history)
  = a.(conversation_history) ++ appended (events (exec net c a)).
Proof.
  unfold final, events. revert a.
  induction c as [ x | k IH | m k IH | w k IH | w k IH | t k IH | rq k IH
                   | kind title message k IH | line k IH | d k IH ];
    intro a; cbn [exec].
  - cbn. rewrite app_nil_r. reflexivity.
  - apply IH.
  - specialize (IH (mutate m a)).
    destruct (exec net k (mutate m a)) as [[x a'] evs]. cbn [fst snd] in *.
    rewrite IH, history_mutate, <- app_assoc.
    destruct m; reflexivity.
  - specialize (IH (draw w a)).
    destruct (exec net k (draw w a)) as [[x a'] evs]. cbn [fst snd] in *.
    rewrite IH, history_draw. reflexivity.
  - specialize (IH a). destruct (exec net k a) as [[x a'] evs]. exact IH.
  - specialize (IH a). destruct (exec net k a) as [[x a'] evs]. exact IH.
  - specialize (IH (net rq) a).
    destruct (exec net (k (net rq)) a) as [[x a'] evs]. exact IH.
  - specialize (IH a). destruct (exec net k a) as [[x a'] evs]. exact IH.
  - specialize (IH a). destruct (exec net k a) as [[x a'] evs]. exact IH.
  - specialize (IH a). destruct (exec net k a) as [[x a'] evs]. exact IH.
Qed.

Lemma history_worker_node (o : HttpOutcome) (c c' : Cmd unit) (a a' : App)
      (evs : list Event) :
  worker_node o c a = Some (c', a', evs) ->
  a'.(conversation_history) = a.(conversation_history) ++ appended evs.
Proof.
  destruct c; cbn [worker_node]; intro H; try discriminate H;
    injection H as <- <- <-;
    rewrite ?history_mutate, ?history_draw; cbn [appended];
    rewrite ?app_nil_r; reflexivity.
Qed.

Lemma history_tk_input (u : UserAction) (a : App) :
  (tk_input u a).(conversation_history) = a.(conversation_history).
Proof. destruct u; reflexivity. Qed.

Lemma map_snd_tag (t : Thread) (evs : list Event) : map snd (tag t evs) = evs.
Proof.
  unfold tag. induction evs as [ | e evs IH ]; [ reflexivity | ].
  cbn [map snd]. rewrite IH. reflexivity.
Qed.

(** One step extends the transcript by what the step's events append. *)
Lemma step_history (s s' : System) :
  step s s' ->
  exists evs,
    map snd s'.(log) = map snd s.(log) ++ evs
    /\ s'.(app).(conversation_history)
       = s.(app).(conversation_history) ++ appended evs.
Proof.
  intros [ s0 u net r Hr | s0 w q Hq | s0 n c o c' a' evs Hn Hnode ];
    cbn [app log].
  - exists (events r). split.
    + rewrite map_app, map_snd_tag. reflexivity.
    + subst r. rewrite history_exec, history_tk_input. reflexivity.
  - exists [EvWidget w]. split.
    + rewrite map_app. reflexivity.
    + rewrite history_draw. cbn. rewrite app_nil_r. reflexivity.
  - exists evs. split.
    + rewrite map_app, map_snd_tag. reflexivity.
    + eapply history_worker_node. exact Hnode.
Qed.


Lemma appended_spoken (l : list (Thread * Event)) :
  Forall by_thread l -> Forall spoken (appended (map snd l)).
Proof.
  induction 1 as [ | [t e] l He _ IH ]; [ constructor | ].
  cbn [map snd]. unfold by_thread in He. cbn [fst snd] in He.
  destruct e as [ m | | | | | | | ]; cbn [appended]; try exact IH.
  destruct m; try exact IH.
  constructor; [ | exact IH ].
  destruct t; cbn in He; [ left | right ]; exact He.
Qed.

Lemma steps_logged (s s' : System) :
  steps_to s s' ->
  s.(app).(conversation_history) = appended (map snd s.(log)) ->
  s'.(app).(conversation_history) = appended (map snd s'.(log)).
Proof.
  induction 1 as [ s | s1 s2 s3 _ IH Hstep ]; intro H0; [ exact H0 | ].
  destruct (step_history s2 s3 Hstep) as (evs & Hl & Hh).
  rewrite Hh, Hl, appended_app, (IH H0). reflexivity.
Qed.

(** X12.  In every state the window can reach, the transcript holds
    exactly the messages appended so far, in the order of their appends,
    and each of them has the role "user" or "assistant": the system
    prompt and the greeting's "Hello" are never stored. *)
Theorem transcript_holds_spoken_turns (s : System) :
  reachable s ->
  s.(app).(conversation_history) = appended (map snd s.(log))
  /\ Forall spoken s.(app).(conversation_history)
  /\ ~ In (mkMessage "system" SYSTEM_PROMPT) s.(app).(conversation_history).
Proof.
  intro Hr.
  assert (Hh : s.(app).(conversation_history) = appended (map snd s.(log))).
  { apply (steps_logged fresh s Hr). reflexivity. }
  assert (Hs : Forall spoken s.(app).(conversation_history)).
  { rewrite Hh. apply appended_spoken.
    apply (reachable_well_threaded s Hr). }
  split; [ exact Hh | split; [ exact Hs | ] ].
  intro Hin. rewrite Forall_forall in Hs.
  destruct (Hs _ Hin) as [H | H]; discriminate H.
Qed.

Lemma after_one_turn_reachable : reachable after_one_turn.
Proof. apply (schedule_steps one_turn). vm_compute. reflexivity. Qed.


Lemma transcript_holds_spoken_turns_witness :
  after_one_turn.(app).(conversation_history)
  = appended (map snd after_one_turn.(log))
  /\ Forall spoken after_one_turn.(app).(conversation_history)
  /\ ~ In (mkMessage "system" SYSTEM_PROMPT)
          after_one_turn.(app).(conversation_history).
Proof.
  apply (transcript_holds_spoken_turns after_one_turn).
  apply (schedule_steps one_turn). vm_compute. reflexivity.
Defined.

(** *** The connection flag *)

Lemma client_mutate_kept (m : Mutation) (a : App) :
  keeps_client (EvAssign m) -> truthy a.(client) = true ->
  truthy (mutate m a).(client) = true.
Proof.
  destruct m; cbn; intros Hk Hc; try exact Hc. rewrite Hk. reflexivity.
Qed.

Lemma client_exec_kept {A : Type} (net : HttpRequest -> HttpOutcome)
      (c : Cmd A) :
  only keeps_client c ->
  forall a, truthy a.(client) = true ->
            truthy (final (exec net c a)).(client) = true.
Proof.
  unfold final.
  induction 1 as [ x | k _ IH | m k Hm _ IH | w k Hw _ IH | w k Hw _ IH
                   | t k Ht _ IH | rq k Hrq _ IH | kind title message k Hb _ IH
                   | line k Hl _ IH | d k Hd _ IH ];
    intros a Ha; cbn [exec].
  - exact Ha.
  - apply IH. exact Ha.
  - specialize (IH (mutate m a) (client_mutate_kept m a Hm Ha)).
    destruct (exec net k (mutate m a)) as [[x a'] evs]. exact IH.
  - assert (Hd : truthy (draw w a).(client) = true)
      by (rewrite client_draw; exact Ha).
    specialize (IH (draw w a) Hd).
    destruct (exec net k (draw w a)) as [[x a'] evs]. exact IH.
  - specialize (IH a Ha). destruct (exec net k a) as [[x a'] evs]. exact IH.
  - specialize (IH a Ha). destruct (exec net k a) as [[x a'] evs]. exact IH.
  - specialize (IH (net rq) a Ha).
    destruct (exec net (k (net rq)) a) as [[x a'] evs]. exact IH.
  - specialize (IH a Ha). destruct (exec net k a) as [[x a'] evs]. exact IH.
  - specialize (IH a Ha). destruct (exec net k a) as [[x a'] evs]. exact IH.
  - specialize (IH a Ha). destruct (exec net k a) as [[x a'] evs]. exact IH.
Qed.

Lemma handler_keeps_client (u : UserAction) : only keeps_client (handler u).
Proof.
  destruct u; cbn [handler];
    unfold _on_provider_change, _update_key_entry, _on_connect,
      _connect_client, connect_except, _send_greeting, _send_quick,
      _send_message, _toggle_breathing, _clear_placeholder,
      _restore_placeholder,
      self, after, assign, widget, thread_start, http, messagebox, stdout;
    only_steps.
Qed.

Lemma worker_event_keeps_client (e : Event) : worker_event e -> keeps_client e.
Proof.
  destruct e as [ m | | | | | | | ]; cbn; auto. destruct m; cbn; auto.
  intros [].
Qed.

Lemma client_tk_input (u : UserAction) (a : App) :
  (tk_input u a).(client) = a.(client).
Proof. destruct u; reflexivity. Qed.

Lemma step_keeps_client (s s' : System) :
  well_threaded s -> step s s' ->
  truthy s.(app).(client) = true -> truthy s'.(app).(client) = true.
Proof.
  intros [Hw _] Hstep Hc.
  destruct Hstep as [ s u net r Hr | s w q Hq | s n c o c' a' evs Hn Hnode ];
    cbn [app].
  - subst r. apply client_exec_kept; [ apply handler_keeps_client | ].
    rewrite client_tk_input. exact Hc.
  - rewrite client_draw. exact Hc.
  - assert (Hsafe : only worker_event c).
    { rewrite Forall_forall in Hw. apply Hw. eapply nth_error_In; exact Hn. }
    destruct Hsafe as [ x | k _ | m k Hm _ | w k Hm _ | w k _ _ | t k Ht _
                        | rq k _ _ | kind title message k Hb _ | line k Hl _
                        | d k _ _ ];
      cbn [worker_node] in Hnode; try discriminate Hnode;
      injection Hnode as <- <- <-; try exact Hc; try (elim Hm; fail).
    apply client_mutate_kept; [ | exact Hc ].
    apply worker_event_keeps_client. exact Hm.
Qed.

(** X13.  Nothing ever disconnects the window: once [client] is set, it is
    set in every later state, whatever the user does and whatever the
    health checks and provider calls that follow answer. *)
Theorem connected_stays_connected (s s' : System) :
  reachable s -> steps_to s s' ->
  truthy s.(app).(client) = true -> truthy s'.(app).(client) = true.
Proof.
  intros Hr Hsteps. pose proof (reachable_well_threaded s Hr) as Hw.
  induction Hsteps as [ s | s1 s2 s3 H12 IH Hstep ]; intro Hc; [ exact Hc | ].
  eapply step_keeps_client; [ | exact Hstep | apply IH; assumption ].
  eapply steps_well_threaded; [ exact H12 | exact Hw ].
Qed.

(** *** Threads *)

Lemma length_set_nth {X : Type} (n : nat) (x : X) (l : list X) :
  List.length (set_nth n x l) = List.length l.
Proof.
  revert n. induction l as [ | y l IH ]; intros [ | n ]; cbn [set_nth List.length];
    try reflexivity. rewrite IH. reflexivity.
Qed.

Lemma step_counts_threads (s s' : System) :
  well_threaded s -> step s s' ->
  List.length s.(workers) = List.length (started (map snd s.(log))) ->
  List.length s'.(workers) = List.length (started (map snd s'.(log))).
Proof.
  intros [Hw _] Hstep H0.
  destruct Hstep as [ s u net r Hr | s w q Hq | s n c o c' a' evs Hn Hnode ];
    cbn [workers log];
    rewrite map_app, started_app, !length_app.
  - rewrite map_snd_tag, length_map, H0. reflexivity.
  - cbn. rewrite H0. lia.
  - assert (Hsafe : only worker_event c).
    { rewrite Forall_forall in Hw. apply Hw. eapply nth_error_In; exact Hn. }
    destruct (worker_node_only worker_event o c c' s.(app) a' evs Hsafe Hnode)
      as [_ Hevs].
    rewrite map_snd_tag, (worker_events_start_nothing evs Hevs).
    cbn [map List.length]. rewrite length_set_nth, H0. reflexivity.
Qed.

(** X14.  Threads are started by the main loop only, one per accepted
    send, greeting or breathing start: in every reachable state there are
    exactly as many workers as thread starts in the log, every thread
    start was made by the main loop, and no worker starts a thread. *)
Theorem threads_started_by_main_loop (s : System) :
  reachable s ->
  List.length s.(workers) = List.length (started (map snd s.(log)))
  /\ (forall t target, In (t, EvThreadStart target) s.(log) -> t = UI).
Proof.
  intro Hr. split.
  - unfold reachable in Hr.
    assert (H : forall s0 s1, steps_to s0 s1 -> well_threaded s0 ->
                List.length s0.(workers)
                = List.length (started (map snd s0.(log))) ->
                List.length s1.(workers)
                = List.length (started (map snd s1.(log)))).
    { induction 1 as [ s0 | s0 s1 s2 H01 IH Hstep ]; intros Hw H0;
        [ exact H0 | ].
      eapply step_counts_threads; [ | exact Hstep | apply IH; assumption ].
      eapply steps_well_threaded; [ exact H01 | exact Hw ]. }
    apply (H fresh s Hr); [ split; constructor | reflexivity ].
  - intros t target Hin.
    destruct (reachable_well_threaded s Hr) as [_ Hlog].
    rewrite Forall_forall in Hlog. specialize (Hlog _ Hin).
    destruct t as [ | n ]; [ reflexivity | elim Hlog ].
Qed.

Lemma connected_stays_connected_witness :
  truthy after_one_turn.(app).(client) = true.
Proof.
  assert (H1 : schedule (firstn 2 one_turn) fresh
               = Some (match schedule (firstn 2 one_turn) fresh with
                       | Some s => s | None => fresh end))
    by (vm_compute; reflexivity).
  assert (H2 : schedule (skipn 2 one_turn)
                 (match schedule (firstn 2 one_turn) fresh with
                  | Some s => s | None => fresh end)
               = Some after_one_turn)
    by (vm_compute; reflexivity).
  apply (connected_stays_connected
           (match schedule (firstn 2 one_turn) fresh with
            | Some s => s | None => fresh end) after_one_turn).
  - apply (schedule_steps (firstn 2 one_turn)). exact H1.
  - apply (schedule_steps (skipn 2 one_turn)). exact H2.
  - vm_compute. reflexivity.
Defined.

Lemma threads_started_by_main_loop_witness :
  List.length after_one_turn.(workers)
  = List.length (started (map snd after_one_turn.(log)))
  /\ (forall t target,
         In (t, EvThreadStart target) after_one_turn.(log) -> t = UI).
Proof.
  apply (threads_started_by_main_loop after_one_turn).
  apply (schedule_steps one_turn). vm_compute. reflexivity.
Defined.

(* ------------------------------------------------------------------ *)
(** ** Box breathing, continued *)

Lemma run_breathing_breathes : only breathing_event _run_breathing.
Proof.
  unfold _run_breathing, breathe_steps, animate, self, after, assign, sleep.
  only_steps.
Qed.

(** A run of breathing events leaves everything but the flag alone. *)
Lemma breathing_exec {A : Type} (net : HttpRequest -> HttpOutcome) (c : Cmd A) :
  only breathing_event c ->
  forall a,
    let r := exec net c a in
    (final r).(conversation_history) = a.(conversation_history)
    /\ (final r).(client) = a.(client)
    /\ (final r).(api_key) = a.(api_key)
    /\ (final r).(api_provider) = a.(api_provider)
    /\ (final r).(input_box) = a.(input_box).
Proof.
  unfold final. cbv zeta.
  induction 1 as [ x | k _ IH | m k Hm _ IH | w k Hw _ IH | w k Hw _ IH
                   | t k Ht _ IH | rq k Hrq _ IH | kind title message k Hb _ IH
                   | line k Hl _ IH | d k Hd _ IH ];
    intro a; cbn [exec]; try (elim Hw; fail); try (elim Ht; fail);
    try (elim Hrq; fail); try (elim Hb; fail); try (elim Hl; fail).
  - repeat split.
  - apply IH.
  - destruct m; try (elim Hm; fail).
    specialize (IH (mutate (set_breathing b) a)).
    destruct (exec net k (mutate (set_breathing b) a)) as [[x a'] evs].
    exact IH.
  - specialize (IH a). destruct (exec net k a) as [[x a'] evs]. exact IH.
  - specialize (IH a). destruct (exec net k a) as [[x a'] evs]. exact IH.
Qed.

Lemma breathing_events_quiet (evs : list Event) :
  Forall breathing_event evs ->
  appended evs = [] /\ requested evs = [] /\ started evs = []
  /\ Forall (fun w => match w with
                      | draw_breath_circle _ _ | breath_btn_configure _ => True
                      | _ => False
                      end) (posted evs).
Proof.
  induction 1 as [ | e evs He _ (H1 & H2 & H3 & H4) ].
  - repeat split; constructor.
  - destruct e as [ m | | w | | | | | ]; cbn in He |- *;
      try (elim He; fail); try (repeat split; assumption).
    + destruct m; try (elim He; fail). repeat split; assumption.
    + destruct w; try (elim He; fail);
        repeat split; try assumption; constructor; try assumption; exact I.
Qed.

Section BreathingMore.

Variable net : HttpRequest -> HttpOutcome.

Lemma for_each_broken {X : Type} (x : X) (xs : list X) (body : X -> Cmd bool)
      (a : App) :
  exec net (body x) a = (BREAK, a, []) ->
  exec net (for_each (x :: xs) body) a = (tt, a, []).
Proof.
  intro H. cbn [for_each]. rewrite exec_bind, H. reflexivity.
Qed.

(** X15.  A breathing worker keeps to itself.  Whatever the flag says and
    whenever it runs, [_run_breathing] appends nothing to the transcript,
    sends no request and starts no thread; it leaves the transcript, the
    connection flag, the key, the provider and the input box as they
    were; all it posts are circle frames and the button reset.  Started
    with the flag already cleared, it does nothing at all: no frame and
    no "Done". *)
Theorem breathing_worker_keeps_to_itself (a : App) :
  let r := exec net _run_breathing a in
  appended (events r) = []
  /\ requested (events r) = []
  /\ started (events r) = []
  /\ Forall (fun w => match w with
                      | draw_breath_circle _ _ | breath_btn_configure _ => True
                      | _ => False
                      end) (posted (events r))
  /\ (final r).(conversation_history) = a.(conversation_history)
  /\ (final r).(client) = a.(client)
  /\ (final r).(api_key) = a.(api_key)
  /\ (final r).(input_box) = a.(input_box)
  /\ (a.(breathing) = false -> exec net _run_breathing a = (tt, a, [])).
Proof.
  cbv zeta.
  pose proof (exec_only breathing_event net _run_breathing
                        run_breathing_breathes a) as Hev.
  destruct (breathing_events_quiet _ Hev) as (H1 & H2 & H3 & H4).
  destruct (breathing_exec net _run_breathing run_breathing_breathes a)
    as (H5 & H6 & H7 & _ & H9).
  repeat (split; [ assumption | ]).
  intro Hb. unfold _run_breathing. rewrite exec_bind.
  change (range 4) with (0%Z :: map Z.of_nat (seq 1 3)).
  rewrite for_each_broken.
  - cbn [bind self exec]. rewrite Hb. reflexivity.
  - cbn [bind self exec]. rewrite Hb. reflexivity.
Qed.

Lemma exec_run_breathing_unbroken (a : App) :
  a.(breathing) = true ->
  exec net _run_breathing a
  = (tt, mutate (set_breathing false) a, session_events).
Proof.
  intro Hb. unfold _run_breathing, session_events. rewrite exec_bind.
  rewrite (for_each_unbroken net (range 4) _ a (fun _ => cycle_events)).
  - cbn [bind self exec]. rewrite Hb. reflexivity.
  - intros cycle _. cbn [bind self exec]. rewrite Hb. cbn [negb].
    rewrite exec_bind, exec_cycle by exact Hb.
    cbn [exec]. rewrite app_nil_r. reflexivity.
Qed.

Lemma slept_app (l1 l2 : list Event) :
  (slept (l1 ++ l2) == slept l1 + slept l2)%Q.
Proof.
  induction l1 as [ | e l1 IH ]; cbn [List.app slept].
  - ring.
  - destruct e; try exact IH. rewrite IH. ring.
Qed.

Lemma slept_ticks (label : string) (duration : Z) (xs : list Z) :
  (slept (flat_map (tick_events label duration) xs)
   == inject_Z (Z.of_nat (List.length xs)) * tick_sleep duration)%Q.
Proof.
  induction xs as [ | i xs IH ].
  - cbn. ring.
  - cbn [flat_map]. rewrite slept_app, IH.
    unfold tick_events. cbn [slept List.length].
    rewrite Nat2Z.inj_succ, <- Z.add_1_r, inject_Z_plus. ring.
Qed.

(** X16.  A phase that is left alone sleeps 31 times a thirtieth of its
    nominal duration: a 4-second phase lasts 31/30 of 4 seconds.  A whole
    session that is left alone therefore sleeps 74.4 seconds, not the 72
    that its sixteen phases add up to. *)
Theorem phase_overruns_by_one_tick (label : string) (duration : Z) (a : App) :
  a.(breathing) = true ->
  (slept (events (exec net (animate label duration) a))
   == (31 # 30) * inject_Z duration)%Q
  /\ (slept (events (exec net _run_breathing a)) == 372 # 5)%Q.
Proof.
  intro Hb. split.
  - rewrite (exec_animate net label duration a Hb). cbn [events snd].
    unfold phase_events. rewrite slept_ticks.
    unfold tick_sleep. rewrite Qred_correct.
    change (List.length (range 31)) with 31%nat.
    unfold steps. field.
  - rewrite (exec_run_breathing_unbroken a Hb). cbn [events snd].
    vm_compute. reflexivity.
Qed.

End BreathingMore.

Lemma replace_at_end (base new : string) :
  no_ellipsis base ->
  PyStr.replace "…" new (base ++ "…")%string = (base ++ new)%string.
Proof.
  unfold PyStr.replace. induction base as [ | c base IH ]; intro Hb.
  - change (("" ++ "…")%string) with "…"%string.
    change (("" ++ new)%string) with new.
    cbn. apply append_empty.
  - destruct Hb as [Hc Hb].
    change ((String c base ++ "…")%string) with (String c (base ++ "…")%string).
    change ((String c base ++ new)%string) with (String c (base ++ new)%string).
    cbn [PyStr.replace_from prefix].
    destruct (ascii_dec _ c) as [E | E].
    + elim Hc. rewrite <- E. reflexivity.
    + rewrite (IH Hb). reflexivity.
Qed.

Lemma remaining_div (duration i : Z) :
  0 <= duration -> 0 <= i -> remaining duration i = duration - (i * duration) / 30.
Proof.
  intros Hd Hi. unfold remaining, steps.
  rewrite Z.quot_div_nonneg by nia. reflexivity.
Qed.

(** X17.  The label of frame [i] of a phase is the phase's name with the
    ellipsis replaced by the whole seconds left, in brackets.  The count
    starts at the phase's duration, never rises from one frame to the
    next, and reaches 0 on the last frame, the 31st. *)
Theorem countdown_label (base : string) (duration i : Z) :
  no_ellipsis base -> 0 <= duration -> 0 <= i <= 30 ->
  lbl_at (base ++ "…")%string duration i
  = (base ++ " (" ++ PyStr.of_int (remaining duration i) ++ "s)")%string
  /\ 0 <= remaining duration i <= duration
  /\ remaining duration 0 = duration
  /\ remaining duration 30 = 0
  /\ (forall j, i <= j <= 30 -> remaining duration j <= remaining duration i).
Proof.
  intros Hb Hd Hi. split; [ | split; [ | split; [ | split ] ] ].
  - unfold lbl_at. rewrite (replace_at_end _ _ Hb). reflexivity.
  - rewrite remaining_div by lia.
    assert (0 <= (i * duration) / 30) by (apply Z.div_pos; nia).
    assert ((i * duration) / 30 <= duration)
      by (apply Z.div_le_upper_bound; nia).
    lia.
  - rewrite remaining_div by lia. rewrite Z.mul_0_l. cbn. lia.
  - rewrite remaining_div by lia.
    rewrite Z.mul_comm, Z.div_mul by lia. lia.
  - intros j Hj. rewrite !remaining_div by lia.
    assert ((i * duration) / 30 <= (j * duration) / 30)
      by (apply Z.div_le_mono; nia).
    lia.
Qed.

Lemma countdown_label_witness :
  lbl_at "Exhale…" 6 12 = "Exhale (4s)"%string
  /\ 0 <= remaining 6 12 <= 6.
Proof.
  destruct (countdown_label "Exhale" 6 12) as (H1 & H2 & _).
  - cbn. repeat split; discriminate.
  - lia.
  - lia.
  - split; [ exact H1 | exact H2 ].
Defined.

(** X18.  The scale of every frame lies between 1 and 1.35, and every
    phase starts at 1.  The phases named "Inhale…" and "Hold…" both grow
    from 1 to 1.35, so a hold does not stay at the size the inhale
    reached; a phase of any other name, "Exhale…" among them, stays at 1
    from its first frame to its last. *)
Theorem scale_stays_in_range (label : string) (i : Z) :
  0 <= i <= 30 ->
  (1 <= scale_at label i)%Q
  /\ (scale_at label i <= 135 # 100)%Q
  /\ (scale_at label 0 == 1)%Q
  /\ (label = "Inhale…"%string \/ label = "Hold…"%string ->
      (scale_at label 30 == 135 # 100)%Q)
  /\ (label <> "Inhale…"%string -> label <> "Hold…"%string ->
      (scale_at label i == 1)%Q).
Proof.
  intro Hi.
  assert (H0 : (0 <= inject_Z i)%Q)
    by (change 0%Q with (inject_Z 0); rewrite <- Zle_Qle; lia).
  assert (H30 : (inject_Z i <= 30)%Q)
    by (change 30%Q with (inject_Z 30); rewrite <- Zle_Qle; lia).
  unfold scale_at. rewrite !Qred_correct.
  unfold end_scale, start_scale, steps.
  change (inject_Z 30) with (30 # 1). change (inject_Z 0) with (0 # 1).
  destruct (String.eqb_spec label "Inhale…") as [E1 | E1];
    destruct (String.eqb_spec label "Hold…") as [E2 | E2]; cbn [orb];
    repeat split;
    try (intros; exfalso; tauto);
    try (intros [H | H]; exfalso; contradiction);
    intros; unfold Qdiv; change (/ (30 # 1))%Q with (1 # 30);
    try lra; try (vm_compute; reflexivity).
Qed.

Lemma scale_stays_in_range_witness :
  (1 <= scale_at "Hold…" 15)%Q /\ (scale_at "Hold…" 15 <= 135 # 100)%Q.
Proof.
  destruct (scale_stays_in_range "Hold…" 15) as (H1 & H2 & _).
  - lia.
  - split; [ exact H1 | exact H2 ].
Defined.

(* ------------------------------------------------------------------ *)
(** ** The Enter key, start-up, and what failures say *)

Lemma land_1_zero (state : Z) :
  (Z.land state 1 =? 0)%Z = negb (Z.testbit state 0).
Proof.
  change 1 with (Z.ones 1). rewrite Z.land_ones by lia.
  change (2 ^ 1) with 2. rewrite <- Z.bit0_mod.
  destruct (Z.testbit state 0); reflexivity.
Qed.

Section Keys.

Variable net : HttpRequest -> HttpOutcome.

(** X19.  Enter sends exactly when the Shift bit, bit 0 of the modifier
    mask, is clear, whatever other modifier bits are set: the handler
    then does what [_send_message] does and answers "break", which keeps
    Tk from inserting the newline.  With the Shift bit set it does
    nothing and answers nothing, so the newline goes in. *)
Theorem enter_sends_unless_shift (state : Z) (a : App) :
  (Z.testbit state 0 = false ->
   exec net (_on_enter state) a
   = (Some "break"%string, final (exec net _send_message a),
      events (exec net _send_message a)))
  /\ (Z.testbit state 0 = true ->
      exec net (_on_enter state) a = (None, a, [])).
Proof.
  unfold _on_enter. rewrite land_1_zero.
  split; intro H; rewrite H; cbn [negb].
  - rewrite exec_bind.
    destruct (exec net _send_message a) as [[[] a1] evs].
    cbn. rewrite app_nil_r. reflexivity.
  - reflexivity.
Qed.

(** X20.  At start-up the window connects on its own when either key is
    in the environment, and the check it sends always carries the
    OpenRouter key, also when only the OpenAI key is set and the
    OpenRouter key is empty.  The greeting is then registered to run 400
    ms later whatever the check answered, and [_send_greeting] starts its
    worker without looking at [client].  With neither key set nothing is
    sent or registered. *)
Theorem auto_connect_uses_openrouter_key (env_openai env_openrouter : string) :
  let a := built_app env_openai env_openrouter in
  let r := exec net auto_connect a in
  (env_openai = ""%string -> env_openrouter = ""%string ->
   r = ([], a, []) /\ a = fresh_app)
  /\ (env_openai <> ""%string \/ env_openrouter <> ""%string ->
      fst (fst r) = [(400, _send_greeting)]
      /\ requested (events r)
         = [ mkRequest GET "https://openrouter.ai/api/v1/models"
               [("Authorization", ("Bearer " ++ env_openrouter)%string)] None ]
      /\ (final r).(client)
         = (if health_check_passes (net (health_request a))
            then Some true else None))
  /\ (forall a', started (events (exec net _send_greeting a'))
                 = [stream_response_target (own_list [mkMessage "user" "Hello"])]).
Proof.
  cbv zeta. split; [ | split ].
  - intros -> ->. split; reflexivity.
  - intro Hk. unfold auto_connect. cbn [bind self exec].
    assert (Hor : orb (negb (PyStr.falsy (built_app env_openai env_openrouter).(openai_api_key)))
                      (negb (PyStr.falsy (built_app env_openai env_openrouter).(openrouter_api_key)))
                  = true).
    { cbn [built_app openai_api_key openrouter_api_key].
      destruct Hk as [Hk | Hk]; rewrite (falsy_nonempty _ Hk);
        [ reflexivity | apply orb_true_r ]. }
    rewrite Hor. rewrite exec_bind.
    destruct (exec_connect_client net (built_app env_openai env_openrouter))
      as (Hrq & Hfin & _ & _).
    unfold final, events in *.
    destruct (exec net _connect_client (built_app env_openai env_openrouter))
      as [[[] a1] evs].
    cbn [exec fst snd] in *. rewrite app_nil_r, Hrq, Hfin.
    split; [ reflexivity | split; [ reflexivity | ] ].
    destruct (health_check_passes _); reflexivity.
  - intro a'. reflexivity.
Qed.

(** X21.  A health check that does not pass always ends in the
    "Connection Error" box and the "Error" label.  For any status other
    than 200, be it 401, 429 or 500, the box says "Invalid API key"; when
    the request itself fails, it shows the failure's own text. *)
Theorem connect_failure_says_invalid_key (a : App) :
  health_check_passes (net (health_request a)) = false ->
  let r := exec net _connect_client a in
  exists said,
    In (EvMessageBox showerror "Connection Error" said) (events r)
    /\ In (EvWidget (status_label_configure "● Error" "#ef4444")) (events r)
    /\ match net (health_request a) with
       | Responded _ => said = "Invalid API key"%string
       | Raised msg => said = msg
       end.
Proof.
  unfold health_request, _connect_client. cbn.
  destruct (a.(api_provider) =? "OpenAI")%string; cbn;
    destruct (net _) as [ msg | resp ]; cbn;
    try destruct (resp.(status_code) =? 200)%Z; cbn; intro H;
    try discriminate H;
    eexists; (split; [ | split; [ | reflexivity ] ]);
    cbn; tauto.
Qed.

(** X22.  When the provider answers a completion request with a status
    other than 200, the message posted to the chat display names that
    status: "Something went wrong: API Error: " followed by the status in
    decimal.  When the request itself fails, the message carries the
    failure's own text. *)
Theorem failed_call_names_status (messages_arg : MessagesArg) (a : App) :
  let r := exec net (_stream_response messages_arg) a in
  match net (stream_request messages_arg a) with
  | Responded resp =>
      resp.(status_code) <> 200 ->
      posted (events r)
      = [ show_thinking; hide_thinking;
          append_message "bot" "Solace"
            ("Something went wrong: API Error: "
             ++ PyStr.of_int resp.(status_code))%string ]
  | Raised msg =>
      posted (events r)
      = [ show_thinking; hide_thinking;
          append_message "bot" "Solace" ("Something went wrong: " ++ msg)%string ]
  end.
Proof.
  cbv zeta. rewrite exec_stream_response. cbv zeta.
  destruct (net (stream_request messages_arg a)) as [ msg | resp ].
  - rewrite completion_text_Raised. reflexivity.
  - intro Hs. rewrite (completion_text_bad_status resp Hs). reflexivity.
Qed.

End Keys.

Lemma enter_sends_unless_shift_witness :
  exec offline (_on_enter 5) (connected_app "hello") = (None, connected_app "hello", []).
Proof.
  destruct (enter_sends_unless_shift offline 5 (connected_app "hello")) as [_ H].
  apply H. reflexivity.
Defined.

Lemma auto_connect_uses_openrouter_key_witness :
  let r := exec (answering 401) auto_connect (built_app "sk-openai-only" "") in
  fst (fst r) = [(400, _send_greeting)]
  /\ requested (events r)
     = [ mkRequest GET "https://openrouter.ai/api/v1/models"
           [("Authorization", "Bearer "%string)] None ]
  /\ (final r).(client) = None.
Proof.
  destruct (auto_connect_uses_openrouter_key (answering 401) "sk-openai-only" "")
    as (_ & H & _).
  apply H. left. discriminate.
Defined.

Lemma connect_failure_says_invalid_key_witness :
  exists said,
    In (EvMessageBox showerror "Connection Error" said)
       (events (exec (answering 500) _connect_client (connected_app "")))
    /\ In (EvWidget (status_label_configure "● Error" "#ef4444"))
          (events (exec (answering 500) _connect_client (connected_app "")))
    /\ said = "Invalid API key"%string.
Proof.
  apply (connect_failure_says_invalid_key (answering 500) (connected_app "")).
  reflexivity.
Defined.

Lemma failed_call_names_status_witness :
  posted (events (exec (answering 429) (_stream_response the_history)
                       (connected_app "")))
  = [ show_thinking; hide_thinking;
      append_message "bot" "Solace" "Something went wrong: API Error: 429" ].
Proof.
  apply (failed_call_names_status (answering 429) the_history (connected_app "")).
  vm_compute. discriminate.
Defined.

(* ------------------------------------------------------------------ *)
(** ** What gets recorded *)

Lemma send_message_meaningful : only meaningful _send_message.
Proof.
  unfold _send_message.
  apply only_bind; [ unfold self; only_steps | ]. intro s.
  destruct (negb (truthy s.(client))); [ unfold messagebox; only_steps | ].
  apply only_bind; [ unfold self; only_steps | ]. intro s'.
  cbv zeta.
  destruct (PyStr.falsy (PyStr.strip s'.(input_box))) eqn:Hf;
    [ constructor | ].
  destruct (String.eqb_spec (PyStr.strip s'.(input_box)) PLACEHOLDER)
    as [ Hp | Hp ]; [ constructor | ].
  cbn [orb].
  do 3 (apply only_bind; [ unfold widget; only_steps | intros _ ]).
  apply only_bind; [ | intros _; unfold thread_start; only_steps ].
  unfold assign. constructor; [ | constructor ].
  cbn. intros _. split; [ | exact Hp ].
  intro He. rewrite He in Hf. discriminate Hf.
Qed.

Lemma handler_meaningful (u : UserAction) : only meaningful (handler u).
Proof.
  destruct u; cbn [handler].
  - unfold _on_provider_change, _update_key_entry, self, assign, widget.
    only_steps.
  - constructor.
  - constructor.
  - unfold _on_connect, _connect_client, connect_except, _send_greeting,
      self, assign, widget, thread_start, http, messagebox, stdout.
    only_steps.
  - apply send_message_meaningful.
  - unfold _send_quick.
    do 3 (apply only_bind; [ unfold widget; only_steps | intros _ ]).
    apply send_message_meaningful.
  - unfold _toggle_breathing, self, assign, widget, thread_start. only_steps.
  - unfold _clear_placeholder, self, widget. only_steps.
  - unfold _restore_placeholder, self, widget. only_steps.
Qed.

Lemma worker_event_meaningful (e : Event) : worker_event e -> meaningful e.
Proof.
  destruct e as [ m | | | | | | | ]; cbn; auto. destruct m; cbn; auto.
  intros Ha Hu. rewrite Ha in Hu. discriminate Hu.
Qed.

Lemma step_meaningful (s s' : System) :
  well_threaded s -> step s s' ->
  Forall meaningful (map snd s.(log)) -> Forall meaningful (map snd s'.(log)).
Proof.
  intros [Hw _] Hstep H0.
  destruct Hstep as [ s u net r Hr | s w q Hq | s n c o c' a' evs Hn Hnode ];
    cbn [log]; rewrite map_app; apply Forall_app; (split; [ exact H0 | ]).
  - rewrite map_snd_tag. subst r. apply exec_only. apply handler_meaningful.
  - constructor; [ exact I | constructor ].
  - rewrite map_snd_tag.
    assert (Hsafe : only worker_event c).
    { rewrite Forall_forall in Hw. apply Hw. eapply nth_error_In; exact Hn. }
    destruct (worker_node_only worker_event o c c' s.(app) a' evs Hsafe Hnode)
      as [_ Hevs].
    eapply Forall_impl; [ | exact Hevs ]. apply worker_event_meaningful.
Qed.

Lemma appended_meaningful (evs : list Event) :
  Forall meaningful evs ->
  Forall (fun m => m.(role) = "user"%string ->
                   m.(content) <> ""%string /\ m.(content) <> PLACEHOLDER)
         (appended evs).
Proof.
  induction 1 as [ | e evs He _ IH ]; [ constructor | ].
  destruct e as [ m | | | | | | | ]; cbn [appended]; try exact IH.
  destruct m; try exact IH. constructor; [ exact He | exact IH ].
Qed.

(** X23.  No empty turn of the user is ever recorded: in every state the
    window can reach, each user message in the transcript has a content
    that is not empty and is not the placeholder text. *)
Theorem user_turns_are_never_empty (s : System) (m : Message) :
  reachable s ->
  In m s.(app).(conversation_history) ->
  m.(role) = "user"%string ->
  m.(content) <> ""%string /\ m.(content) <> PLACEHOLDER.
Proof.
  intros Hr Hin Hu.
  assert (Hlog : Forall meaningful (map snd s.(log))).
  { assert (H : forall s0 s1, steps_to s0 s1 -> well_threaded s0 ->
                  Forall meaningful (map snd s0.(log)) ->
                  Forall meaningful (map snd s1.(log))).
    { induction 1 as [ s0 | s0 s1 s2 H01 IH Hstep ]; intros Hw H0;
        [ exact H0 | ].
      eapply step_meaningful; [ | exact Hstep | apply IH; assumption ].
      eapply steps_well_threaded; [ exact H01 | exact Hw ]. }
    apply (H fresh s Hr); [ split; constructor | constructor ]. }
  assert (Hh : s.(app).(conversation_history) = appended (map snd s.(log)))
    by (apply (steps_logged fresh s Hr); reflexivity).
  apply appended_meaningful in Hlog. rewrite <- Hh in Hlog.
  rewrite Forall_forall in Hlog. exact (Hlog m Hin Hu).
Qed.

Lemma user_turns_are_never_empty_witness :
  "I can't sleep"%string <> ""%string /\ "I can't sleep"%string <> PLACEHOLDER.
Proof.
  apply (user_turns_are_never_empty after_one_turn
           (mkMessage "user" "I can't sleep")).
  - apply (schedule_steps one_turn). vm_compute. reflexivity.
  - vm_compute. left. reflexivity.
  - reflexivity.
Defined.


Lemma breathing_worker_keeps_to_itself_witness :
  exec offline _run_breathing fresh_app = (tt, fresh_app, []).
Proof.
  destruct (breathing_worker_keeps_to_itself offline fresh_app)
    as (_ & _ & _ & _ & _ & _ & _ & _ & H).
  apply H. reflexivity.
Defined.

Lemma reply_rendered_iff_witness :
  In (append_chunk "Rest will come.")
     (posted (events (exec (replying "  Rest will come. ")
                           (_stream_response the_history)
                           (connected_app "")))).
Proof.
  apply (reply_rendered_iff (replying "  Rest will come. ") the_history
           (connected_app "") "Rest will come.").
  apply (succeeds_iff _ "Rest will come."). reflexivity.
Defined.

Lemma phase_overruns_by_one_tick_witness :
  (slept (events (exec offline (animate "Exhale…" 6) breathing_app))
   == (31 # 30) * inject_Z 6)%Q
  /\ (slept (events (exec offline _run_breathing breathing_app)) == 372 # 5)%Q.
Proof.
  apply (phase_overruns_by_one_tick offline "Exhale…" 6 breathing_app).
  reflexivity.
Defined.
